(** * w5we: order management over a transactional store

    A shallow embedding of [app.py].  The five ORM classes become records,
    the database becomes a record of finite maps keyed by primary key, and
    every endpoint becomes a function from the database at the start of the
    unit of work to the response and the database at its end.

    Conventions.
    - A handler returns [(body, status)] exactly as the Flask view does.
    - [with Session(db.engine) as session, session.begin():] commits on normal
      exit and rolls back when [session.rollback()] was called or an
      exception escapes; a rolled back unit returns the database it started
      from.  An escaping exception is answered with status 500.
    - Python integers are unbounded, hence [Z]; the width of the store's
      INTEGER columns is not modelled.
    - The schemas accept an optional [order_id] / [product_id] key, that is a
      primary key chosen by the client.  Payloads here do not carry it: keys
      are assigned by the store. *)

From Stdlib Require Import Floats Ascii String.
From stdpp Require Import gmap strings list fin_maps.

Open Scope Z_scope.

(** ** Entity model *)

Record date := { year : Z; month : Z; day : Z }.

Module Customer.
Record t := { name : string; email : string; phone : string }.
End Customer.

Module CustomerAccount.
Record t := { username : string; password : string }.
End CustomerAccount.

Module Product.
Record t := { name : string; price : float; stock : Z }.

Definition set_stock (p : t) (s : Z) : t :=
  {| name := name p; price := price p; stock := s |}.
End Product.

(** A row of [Order_Product]; its [order_id] is the order that owns it. *)
Module OrderProduct.
Record t := { product_id : Z; quantity : Z }.
End OrderProduct.

Module Order.
Record t := { date : date; customer_id : Z; products : list OrderProduct.t }.
End Order.

(** The tables, by [__tablename__]; [Order_Product] rows live in the
    [products] collection of their order (relationship with cascade "all"). *)
Record db := {
  Customers : gmap Z Customer.t;
  Customer_Accounts : gmap Z CustomerAccount.t;
  Products : gmap Z Product.t;
  Orders : gmap Z Order.t
}.

Definition set_Products (st : db) (ps : gmap Z Product.t) : db :=
  {| Customers := Customers st; Customer_Accounts := Customer_Accounts st;
     Products := ps; Orders := Orders st |}.

Definition set_Orders (st : db) (os : gmap Z Order.t) : db :=
  {| Customers := Customers st; Customer_Accounts := Customer_Accounts st;
     Products := Products st; Orders := os |}.

Definition set_Customer_Accounts (st : db) (acs : gmap Z CustomerAccount.t) : db :=
  {| Customers := Customers st; Customer_Accounts := acs;
     Products := Products st; Orders := Orders st |}.

(** ** Responses *)

Inductive body :=
| message (m : string)            (* {"message": m} *)
| error (e : string)              (* {"error": e} *)
| error_customer (customer_id : Z)
    (* {"error": f"Customer number {customer_id} does not exist..."} *)
| error_product (product_id : Z)
    (* {"error": f"Product number {product_id} does not exist..."} *)
| error_supply (product_id : Z)
    (* {"error": f"Insufficient supply of Product {product_id} to process this order..."} *)
| err_messages                    (* marshmallow's err.messages *)
| exception (e : string).         (* an exception that leaves the view *)

Definition response : Type := body * Z.

(** ** Request payloads, as the schemas load them *)

(** [order_schema.load]: each key may be absent from the JSON body. *)
Record OrderData := {
  od_customer_id : option Z;
  od_date : option date;
  od_product_ids : option (list Z)
}.

(** [customer_id] and [date] are [required=True]; a partial load waives that. *)
Definition order_schema_load (partial : bool) (json : OrderData) : option OrderData :=
  if partial then Some json
  else match od_customer_id json, od_date json with
       | Some _, Some _ => Some json
       | _, _ => None
       end.

Record CustomerAccountData := {
  cad_customer_id : option Z;
  cad_username : option string;
  cad_password : option string
}.

(** All three keys are required; both strings are at most 255 long. *)
Definition customer_account_schema_load (json : CustomerAccountData)
  : option (Z * string * string) :=
  match cad_customer_id json, cad_username json, cad_password json with
  | Some c, Some u, Some p =>
      if (String.length u <=? 255)%nat && (String.length p <=? 255)%nat
      then Some (c, u, p) else None
  | _, _, _ => None
  end.

Record ProductData := {
  pd_name : option string;
  pd_price : option float;
  pd_stock : option Z
}.

Definition valid_name (s : string) : bool :=
  (1 <=? String.length s)%nat && (String.length s <=? 255)%nat.

(** [fields.Float] refuses NaN and the infinities; [Range(min=0)]. *)
Definition valid_price (p : float) : bool :=
  PrimFloat.leb 0%float p && PrimFloat.ltb p infinity.

Definition valid_stock (s : Z) : bool := 0 <=? s.

Definition valid_opt {A} (f : A → bool) (o : option A) : bool :=
  match o with Some a => f a | None => true end.

(** [product_schema.load(request.json, partial=True)]. *)
Definition product_schema_load_partial (json : ProductData) : option ProductData :=
  if valid_opt valid_name (pd_name json) && valid_opt valid_price (pd_price json)
     && valid_opt valid_stock (pd_stock json)
  then Some json else None.

(** ** A small shop, for the worked examples *)

Module Shop.

Definition day1 : date := {| year := 2024; month := 5; day := 17 |}.

Definition A : Product.t :=
  {| Product.name := "anvil"; Product.price := 12.5%float; Product.stock := 5 |}.
Definition B : Product.t :=
  {| Product.name := "bellows"; Product.price := 30%float; Product.stock := 5 |}.
Definition C : Product.t :=
  {| Product.name := "chisel"; Product.price := 4.25%float; Product.stock := 3 |}.

(** Order 10 of customer 1 holds two of product 1 and one of product 2. *)
Definition order10 : Order.t :=
  {| Order.date := day1; Order.customer_id := 1;
     Order.products :=
       [ {| OrderProduct.product_id := 1; OrderProduct.quantity := 2 |};
         {| OrderProduct.product_id := 2; OrderProduct.quantity := 1 |} ] |}.

Definition shop : db :=
  {| Customers :=
       {[ 1 := {| Customer.name := "Ada"; Customer.email := "ada@example.org";
                  Customer.phone := "555-0100" |} ]};
     Customer_Accounts :=
       {[ 1 := {| CustomerAccount.username := "ada";
                  CustomerAccount.password := "secret" |} ]};
     Products := <[1 := A]> (<[2 := B]> {[ 3 := C ]});
     Orders := {[ 10 := order10 ]} |}.

(** A create-order payload and a payload that only replaces the products. *)
Definition create (customer_id : Z) (product_ids : list Z) : OrderData :=
  {| od_customer_id := Some customer_id; od_date := Some day1;
     od_product_ids := Some product_ids |}.

Definition replace (product_ids : list Z) : OrderData :=
  {| od_customer_id := None; od_date := None; od_product_ids := Some product_ids |}.

(** A payload that only moves the date. *)
Definition redate : OrderData :=
  {| od_customer_id := None;
     od_date := Some {| year := 2024; month := 6; day := 1 |};
     od_product_ids := None |}.

End Shop.

(** ** collections.Counter *)

(** [Counter(iterable)]: [for elem in iterable: self[elem] = self.get(elem, 0) + 1]. *)
Definition Counter (iterable : list Z) : gmap Z Z :=
  foldl (λ self elem, <[elem := default 0 (self !! elem) + 1]> self) ∅ iterable.

(** [quantities[key]]; a missing key counts 0. *)
Definition Counter_getitem (self : gmap Z Z) (key : Z) : Z := default 0 (self !! key).

(** The number of occurrences of [x] in [l], counted directly. *)
Definition occurrences (x : Z) (l : list Z) : Z :=
  Z.of_nat (length (filter (λ y, y = x) l)).

(** ** Query-string helpers *)

Definition is_digit (c : ascii) : bool :=
  (48 <=? nat_of_ascii c)%nat && (nat_of_ascii c <=? 57)%nat.

(** [str.isdigit()]: non-empty and made of decimal digits. *)
Definition isdigit (s : string) : bool :=
  match s with
  | EmptyString => false
  | _ => forallb is_digit (list_ascii_of_string s)
  end.

(** [int(s)] for a string of decimal digits. *)
Definition int (s : string) : Z :=
  foldl (λ acc c, 10 * acc + (Z.of_nat (nat_of_ascii c) - 48)) 0 (list_ascii_of_string s).

(** ** Stock movements shared by the order endpoints *)

(** The loop
[[
    for orderproduct in order.products:
        orderproduct.product.stock += orderproduct.quantity
]]
    over the products table.  [orderproduct.product] is [None] when the row
    points at no product, and the attribute access then raises. *)
Fixpoint release (lines : list OrderProduct.t) (products : gmap Z Product.t)
  : option (gmap Z Product.t) :=
  match lines with
  | [] => Some products
  | orderproduct :: rest =>
      match products !! OrderProduct.product_id orderproduct with
      | None => None
      | Some product =>
          release rest
            (<[OrderProduct.product_id orderproduct :=
                 Product.set_stock product
                   (Product.stock product + OrderProduct.quantity orderproduct)]> products)
      end
  end.

(** The loop
[[
    for product_id in set(product_ids):
        product = session.get(Product, product_id)
        if product is None: ... return 404
        quantity = quantities[product_id]
        if product.stock < quantity: ... return 400
        product.stock -= quantity
        order.products.append(OrderProduct(product=product, quantity=quantity))
]]
    [ids] is the set in iteration order; the result is either the early
    response or the products table and the appended rows. *)
Fixpoint reserve (quantities : gmap Z Z) (ids : list Z)
    (products : gmap Z Product.t) (lines : list OrderProduct.t)
  : response + (gmap Z Product.t * list OrderProduct.t) :=
  match ids with
  | [] => inr (products, lines)
  | product_id :: rest =>
      match products !! product_id with
      | None => inl (error_product product_id, 404)
      | Some product =>
          let quantity := Counter_getitem quantities product_id in
          if Product.stock product <? quantity
          then inl (error_supply product_id, 400)
          else reserve quantities rest
                 (<[product_id := Product.set_stock product (Product.stock product - quantity)]>
                    products)
                 (lines ++ [{| OrderProduct.product_id := product_id;
                               OrderProduct.quantity := quantity |}])
      end
  end.

(** [select(OrderProduct).filter_by(product_id=product_id)] *)
Definition select_OrderProduct (st : db) (product_id : Z) : list OrderProduct.t :=
  filter (λ op, OrderProduct.product_id op = product_id)
         (map_to_list (Orders st) ≫= (λ row, Order.products row.2)).

(** [select(CustomerAccount).filter_by(username=username)], the comparison
    read as equality of strings. *)
Definition select_CustomerAccount (st : db) (username : string)
  : list (Z * CustomerAccount.t) :=
  filter (λ row, CustomerAccount.username row.2 = username)
         (map_to_list (Customer_Accounts st)).

(** ** /customer_accounts *)

Definition add_customer_account (st : db) (json : CustomerAccountData) : response * db :=
  match customer_account_schema_load json with
  | None => ((err_messages, 400), st)
  | Some (customer_id, username, password) =>
      match Customers st !! customer_id with
      | None => ((error "Customer must exist before adding account...", 404), st)
      | Some _ =>
          match Customer_Accounts st !! customer_id with
          | Some _ => ((error "Only one account may exist per customer...", 400), st)
          | None =>
              match select_CustomerAccount st username with
              | _ :: _ => ((error "Usernames must be unique...", 400), st)
              | [] =>
                  ((message "New customer account successfully added!", 201),
                   set_Customer_Accounts st
                     (<[customer_id := {| CustomerAccount.username := username;
                                          CustomerAccount.password := password |}]>
                        (Customer_Accounts st)))
              end
          end
      end
  end.

(** ** /products *)

Definition update_product (st : db) (product_id : Z) (restock : option string)
    (json : ProductData) : response * db :=
  match restock with
  | Some (String _ _ as restock) =>
      if negb (isdigit restock) || (int restock <=? 0)
      then ((error "Restock by positive integer only...", 400), st)
      else
        match Products st !! product_id with
        | None => ((error "Product not found...", 404), st)
        | Some product =>
            ((message "Product details successfully updated!", 200),
             set_Products st
               (<[product_id := Product.set_stock product (Product.stock product + int restock)]>
                  (Products st)))
        end
  | _ =>
      match Products st !! product_id with
      | None => ((error "Product not found...", 404), st)
      | Some product =>
          match product_schema_load_partial json with
          | None => ((err_messages, 400), st)
          | Some product_data =>
              ((message "Product details successfully updated!", 200),
               set_Products st
                 (<[product_id :=
                      {| Product.name := default (Product.name product) (pd_name product_data);
                         Product.price := default (Product.price product) (pd_price product_data);
                         Product.stock := default (Product.stock product) (pd_stock product_data) |}]>
                    (Products st)))
          end
      end
  end.

Definition delete_product (st : db) (product_id : Z) : response * db :=
  match Products st !! product_id with
  | None => ((error "Product not found...", 404), st)
  | Some product =>
      match select_OrderProduct st product_id with
      | _ :: _ => ((error "Cannot delete product with associated orders", 400), st)
      | [] =>
          ((message "Product successfully deleted!", 200),
           set_Products st (delete product_id (Products st)))
      end
  end.

(** ** /orders *)

Definition delete_order (st : db) (order_id : Z) : response * db :=
  match Orders st !! order_id with
  | None => ((error "Order not found", 404), st)
  | Some order =>
      match release (Order.products order) (Products st) with
      | None => ((exception "AttributeError", 500), st)
      | Some products =>
          ((message "Order removed successfully!", 200),
           set_Orders (set_Products st products) (delete order_id (Orders st)))
      end
  end.

Section Orders.

(** [for product_id in set(product_ids)] visits every distinct id once, in
    the order of the interpreter's hash table.  The order is left open: any
    enumeration of the distinct ids without repetition. *)
Variable set_iter : list Z → list Z.
Hypothesis set_iter_NoDup : ∀ l, NoDup (set_iter l).
Hypothesis set_iter_elem : ∀ l x, x ∈ set_iter l ↔ x ∈ l.

(** [order_id] is the key the store's AUTO_INCREMENT gives the new row. *)
Definition add_order (order_id : Z) (st : db) (json : OrderData) : response * db :=
  match order_schema_load false json with
  | None => ((err_messages, 400), st)
  | Some order_data =>
      match od_customer_id order_data, od_date order_data with
      | Some customer_id, Some date =>
          match Customers st !! customer_id with
          | None => ((error_customer customer_id, 404), st)
          | Some customer =>
              match od_product_ids order_data with
              | None => ((exception "KeyError", 500), st)
              | Some product_ids =>
                  let quantities := Counter product_ids in
                  match reserve quantities (set_iter product_ids) (Products st) [] with
                  | inl err => (err, st)
                  | inr (products, lines) =>
                      ((message "New order successfully added!", 201),
                       set_Orders (set_Products st products)
                         (<[order_id := {| Order.date := date;
                                           Order.customer_id := customer_id;
                                           Order.products := lines |}]> (Orders st)))
                  end
              end
          end
      | _, _ => ((exception "KeyError", 500), st)
      end
  end.

(** The trailing [setattr] loop and the commit.  The store enforces the
    foreign key [Orders.customer_id -> Customers.customer_id] on the row it
    updates; a violation raises out of the [with] block and the unit is
    rolled back to [st0]. *)
Definition assign_and_commit (st0 st : db) (order_id : Z) (order : Order.t)
    (order_data : OrderData) : response * db :=
  let order' :=
    {| Order.date := default (Order.date order) (od_date order_data);
       Order.customer_id := default (Order.customer_id order) (od_customer_id order_data);
       Order.products := Order.products order |} in
  let fk_ok :=
    match od_customer_id order_data with
    | Some customer_id => bool_decide (is_Some (Customers st !! customer_id))
    | None => true
    end in
  if fk_ok
  then ((message "Order was successfully updated!", 200),
        set_Orders st (<[order_id := order']> (Orders st)))
  else ((exception "IntegrityError", 500), st0).

(** With [product_ids] in the payload the old rows are released and
    deleted, and the rows appended by the loop are the ones that remain. *)
Definition update_order (st : db) (order_id : Z) (json : OrderData) : response * db :=
  match Orders st !! order_id with
  | None => ((message "Order Not Found", 404), st)
  | Some order =>
      match order_schema_load true json with
      | None => ((err_messages, 400), st)
      | Some order_data =>
          match od_product_ids order_data with
          | Some product_ids =>
              match release (Order.products order) (Products st) with
              | None => ((exception "AttributeError", 500), st)
              | Some restored =>
                  let quantities := Counter product_ids in
                  match reserve quantities (set_iter product_ids) restored [] with
                  | inl err => (err, st)
                  | inr (products, lines) =>
                      assign_and_commit st (set_Products st products) order_id
                        {| Order.date := Order.date order;
                           Order.customer_id := Order.customer_id order;
                           Order.products := lines |}
                        order_data
                  end
              end
          | None => assign_and_commit st st order_id order order_data
          end
      end
  end.

(** ** Vocabulary of the statements *)

(** The quantity of [product_id] that the rows [lines] allocate. *)
Definition held (lines : list OrderProduct.t) (product_id : Z) : Z :=
  foldr (λ op acc,
           (if decide (OrderProduct.product_id op = product_id)
            then OrderProduct.quantity op else 0) + acc) 0 lines.

(** The product as it is but for its stock, moved by [delta]. *)
Definition restocked (delta : Z) (p : Product.t) : Product.t :=
  Product.set_stock p (Product.stock p + delta).

(** [CheckConstraint("stock >= 0")] on every row of [Products]. *)
Definition stock_nonneg (st : db) : Prop :=
  ∀ product_id p, Products st !! product_id = Some p → 0 ≤ Product.stock p.

(** Every row of [Order_Product] carries a positive quantity. *)
Definition quantities_positive (st : db) : Prop :=
  ∀ order_id o op, Orders st !! order_id = Some o → op ∈ Order.products o →
    0 < OrderProduct.quantity op.

(** The foreign key [Order_Product.product_id -> Products.product_id]. *)
Definition lines_resolve (st : db) : Prop :=
  ∀ order_id o op, Orders st !! order_id = Some o → op ∈ Order.products o →
    is_Some (Products st !! OrderProduct.product_id op).

(** A status of the 2xx class. *)
Definition succeeded (r : response) : Prop := 200 ≤ r.2 < 300.

(** Every id of [product_ids] names a product of the table [products] whose
    stock covers the number of times the id is requested. *)
Definition in_stock (products : gmap Z Product.t) (product_ids : list Z) : Prop :=
  ∀ x, x ∈ product_ids →
    ∃ p, products !! x = Some p ∧ occurrences x product_ids ≤ Product.stock p.

(** The id [x] is the reason [err] gives for refusing [product_ids] against
    the table [products]: no such product, or too little of it. *)
Definition refused_for (products : gmap Z Product.t) (product_ids : list Z)
    (x : Z) (err : response) : Prop :=
  x ∈ product_ids ∧
  ((products !! x = None ∧ err = (error_product x, 404))
   ∨ (∃ p, products !! x = Some p ∧ Product.stock p < occurrences x product_ids
           ∧ err = (error_supply x, 400))).

(** The customer a payload assigns, when it assigns one, exists. *)
Definition customer_ok (st : db) (json : OrderData) : Prop :=
  match od_customer_id json with
  | Some customer_id => is_Some (Customers st !! customer_id)
  | None => True
  end.

(** The rows the reserve loop leaves for [product_ids], in iteration order [ids]. *)
Definition allocation (product_ids ids : list Z) : list OrderProduct.t :=
  (λ x, {| OrderProduct.product_id := x;
           OrderProduct.quantity := occurrences x product_ids |}) <$> ids.

(** The request [product_ids] cannot be served from [products] because of
    [x]: it names no product, or one with less stock than requested. *)
Definition short_of (products : gmap Z Product.t) (product_ids : list Z) (x : Z) : Prop :=
  x ∈ product_ids ∧
  (products !! x = None
   ∨ ∃ p, products !! x = Some p ∧ Product.stock p < occurrences x product_ids).

(** * Properties *)

(** ** Counter *)

Lemma occurrences_nil x : occurrences x [] = 0.
Proof. reflexivity. Qed.

Lemma occurrences_snoc x l a :
  occurrences x (l ++ [a]) = occurrences x l + (if decide (a = x) then 1 else 0).
Proof.
  unfold occurrences. rewrite filter_app, length_app, Nat2Z.inj_add.
  f_equal. rewrite filter_cons, filter_nil. by case_decide.
Qed.

Lemma occurrences_nonneg x l : 0 ≤ occurrences x l.
Proof. unfold occurrences. lia. Qed.

Lemma occurrences_pos x l : x ∈ l ↔ 0 < occurrences x l.
Proof.
  unfold occurrences. split.
  - intros Hx. assert (x ∈ filter (λ y, y = x) l) as Hf by (by apply list_elem_of_filter).
    destruct (filter (λ y, y = x) l); [by apply elem_of_nil in Hf | cbn; lia].
  - intros Hpos. destruct (filter (λ y, y = x) l) as [|y l'] eqn:E; [cbn in Hpos; lia|].
    assert (y ∈ filter (λ y, y = x) l) as Hy by (rewrite E; left).
    apply list_elem_of_filter in Hy as [-> ?]. done.
Qed.

Lemma occurrences_notin x l : x ∉ l → occurrences x l = 0.
Proof.
  intros Hx. pose proof (occurrences_pos x l) as Hpos.
  pose proof (occurrences_nonneg x l) as Hnn.
  destruct (decide (occurrences x l = 0)); [done|]. exfalso. apply Hx, Hpos. lia.
Qed.

Lemma occurrences_Permutation x l l' : l ≡ₚ l' → occurrences x l = occurrences x l'.
Proof. intros Hp. unfold occurrences. by rewrite Hp. Qed.

Lemma Counter_snoc l a :
  Counter (l ++ [a]) = <[a := default 0 (Counter l !! a) + 1]> (Counter l).
Proof. unfold Counter. by rewrite foldl_app. Qed.

Lemma Counter_lookup l x :
  Counter l !! x = if decide (x ∈ l) then Some (occurrences x l) else None.
Proof.
  induction l as [|a l IH] using rev_ind.
  - rewrite decide_False by apply not_elem_of_nil. done.
  - rewrite Counter_snoc, occurrences_snoc.
    destruct (decide (a = x)) as [->|Hne].
    + rewrite lookup_insert_eq, IH.
      rewrite (decide_True (P := x ∈ l ++ [x])) by (apply elem_of_app; right; left).
      case_decide as Hx; cbn; [done|]. by rewrite occurrences_notin.
    + rewrite lookup_insert_ne, IH by done.
      rewrite Z.add_0_r.
      destruct (decide (x ∈ l)) as [Hx|Hx].
      * rewrite decide_True; [done|]. apply elem_of_app. by left.
      * rewrite decide_False; [done|]. intros [?|Hin]%elem_of_app; [done|].
        apply list_elem_of_singleton in Hin. congruence.
Qed.

Lemma Counter_getitem_occurrences l x :
  Counter_getitem (Counter l) x = occurrences x l.
Proof.
  unfold Counter_getitem. rewrite Counter_lookup.
  case_decide; cbn; [done|]. by rewrite occurrences_notin.
Qed.

Lemma Counter_Permutation l l' : l ≡ₚ l' → Counter l = Counter l'.
Proof.
  intros Hp. apply map_eq. intros x. rewrite !Counter_lookup.
  rewrite (occurrences_Permutation x l l' Hp).
  destruct (decide (x ∈ l)) as [Hx|Hx]; rewrite Hp in Hx.
  - by rewrite decide_True.
  - by rewrite decide_False.
Qed.

(** ** The two stock loops *)

Lemma restocked_0 p : restocked 0 p = p.
Proof. destruct p. unfold restocked, Product.set_stock. cbn. f_equal. lia. Qed.

Lemma restocked_restocked d1 d2 p : restocked d2 (restocked d1 p) = restocked (d1 + d2) p.
Proof. unfold restocked, Product.set_stock. cbn. f_equal. lia. Qed.

Lemma held_cons op lines x :
  held (op :: lines) x =
  (if decide (OrderProduct.product_id op = x) then OrderProduct.quantity op else 0)
  + held lines x.
Proof. reflexivity. Qed.

Lemma held_notin lines x :
  x ∉ OrderProduct.product_id <$> lines → held lines x = 0.
Proof.
  induction lines as [|op lines IH]; [done|].
  rewrite fmap_cons, not_elem_of_cons, held_cons. intros [Hne Hx].
  rewrite decide_False by done. rewrite IH by done. lia.
Qed.

Lemma release_Some lines : ∀ products,
  (∀ op, op ∈ lines → is_Some (products !! OrderProduct.product_id op)) →
  ∃ products', release lines products = Some products' ∧
    ∀ x, products' !! x = restocked (held lines x) <$> products !! x.
Proof.
  induction lines as [|op lines IH]; intros products Hres.
  - exists products. split; [done|]. intros x. cbn.
    destruct (products !! x); cbn; [by rewrite restocked_0 | done].
  - destruct (Hres op) as [p Hp]; [left|]. cbn [release]. rewrite Hp.
    destruct (IH (<[OrderProduct.product_id op :=
                      Product.set_stock p (Product.stock p + OrderProduct.quantity op)]> products))
      as (products' & Hrel & Hlook).
    { intros op' Hin. rewrite lookup_insert. case_decide; [done|].
      apply Hres. by right. }
    exists products'. split; [done|]. intros x. rewrite Hlook, held_cons, lookup_insert.
    case_decide as Hx.
    + subst x. rewrite Hp. cbn. f_equal.
      change (Product.set_stock p (Product.stock p + OrderProduct.quantity op))
        with (restocked (OrderProduct.quantity op) p).
      by rewrite restocked_restocked.
    + by rewrite Z.add_0_l.
Qed.

Lemma release_resolves lines : ∀ products products',
  release lines products = Some products' →
  ∀ op, op ∈ lines → is_Some (products !! OrderProduct.product_id op).
Proof.
  induction lines as [|op lines IH]; intros products products' Hrel op' Hin.
  - by apply elem_of_nil in Hin.
  - cbn [release] in Hrel.
    destruct (products !! OrderProduct.product_id op) as [p|] eqn:Hp; [|done].
    apply elem_of_cons in Hin as [->|Hin]; [by rewrite Hp|].
    specialize (IH _ _ Hrel op' Hin). rewrite lookup_insert in IH.
    case_decide as Hx; [|done]. rewrite <- Hx. by rewrite Hp.
Qed.

Lemma reserve_inr quantities ids : ∀ products lines products' lines',
  NoDup ids →
  reserve quantities ids products lines = inr (products', lines') →
  (∀ x, x ∈ ids → ∃ p, products !! x = Some p
                       ∧ Counter_getitem quantities x ≤ Product.stock p)
  ∧ (∀ x, products' !! x =
          if decide (x ∈ ids)
          then restocked (- Counter_getitem quantities x) <$> products !! x
          else products !! x)
  ∧ lines' = lines ++
      ((λ x, {| OrderProduct.product_id := x;
                OrderProduct.quantity := Counter_getitem quantities x |}) <$> ids).
Proof.
  induction ids as [|a ids IH]; intros products lines products' lines' Hnd Hres.
  - cbn in Hres. injection Hres as <- <-. split_and!.
    + intros x Hx. by apply elem_of_nil in Hx.
    + intros x. by rewrite decide_False by apply not_elem_of_nil.
    + by rewrite app_nil_r.
  - apply NoDup_cons in Hnd as [Ha Hnd]. cbn [reserve] in Hres.
    destruct (products !! a) as [p|] eqn:Hp; [|done].
    destruct (Product.stock p <? Counter_getitem quantities a) eqn:Hlt; [done|].
    apply Z.ltb_ge in Hlt.
    destruct (IH _ _ _ _ Hnd Hres) as (Hall & Hlook & Hlines). split_and!.
    + intros x [->|Hx]%elem_of_cons; [by exists p|].
      destruct (Hall x Hx) as (p' & Hp' & Hle). exists p'. split; [|done].
      rewrite lookup_insert_ne in Hp'; [done|]. intros ->. done.
    + intros x. rewrite Hlook. destruct (decide (x = a)) as [->|Hne].
      * rewrite decide_False by done. rewrite decide_True by left.
        rewrite lookup_insert_eq, Hp. cbn. unfold restocked. do 2 f_equal; lia.
      * rewrite lookup_insert_ne by done.
        destruct (decide (x ∈ ids)) as [Hx|Hx].
        -- rewrite decide_True by (by right). done.
        -- rewrite decide_False; [done|]. intros [?|?]%elem_of_cons; done.
    + rewrite Hlines, <- app_assoc. done.
Qed.

Lemma reserve_inl quantities ids : ∀ products lines err,
  NoDup ids →
  reserve quantities ids products lines = inl err →
  ∃ x, x ∈ ids ∧
    ((products !! x = None ∧ err = (error_product x, 404))
     ∨ (∃ p, products !! x = Some p ∧ Product.stock p < Counter_getitem quantities x
             ∧ err = (error_supply x, 400))).
Proof.
  induction ids as [|a ids IH]; intros products lines err Hnd Hres; [done|].
  apply NoDup_cons in Hnd as [Ha Hnd]. cbn [reserve] in Hres.
  destruct (products !! a) as [p|] eqn:Hp.
  - destruct (Product.stock p <? Counter_getitem quantities a) eqn:Hlt.
    + injection Hres as <-. apply Z.ltb_lt in Hlt. exists a. split; [left|].
      right. by exists p.
    + destruct (IH _ _ _ Hnd Hres) as (x & Hx & Hcase).
      assert (x ≠ a) as Hne by (intros ->; done).
      exists x. split; [by right|]. rewrite lookup_insert_ne in Hcase by done. done.
  - injection Hres as <-. exists a. split; [left|]. by left.
Qed.

(** The loop over the distinct ids of a request, with [Counter] read as the
    plain count. *)
Lemma reserve_request product_ids products :
  match reserve (Counter product_ids) (set_iter product_ids) products [] with
  | inl err => ∃ x, refused_for products product_ids x err
  | inr (products', lines) =>
      in_stock products product_ids
      ∧ (∀ x, products' !! x = restocked (- occurrences x product_ids) <$> products !! x)
      ∧ lines = allocation product_ids (set_iter product_ids)
  end.
Proof.
  destruct (reserve _ _ _ _) as [err|[products' lines]] eqn:Hres.
  - apply reserve_inl in Hres as (x & Hx & Hcase); [|done].
    rewrite Counter_getitem_occurrences in Hcase.
    exists x. split; [by apply set_iter_elem|done].
  - apply reserve_inr in Hres as (Hall & Hlook & Hlines); [|done]. split_and!.
    + intros x Hx. destruct (Hall x) as (p & Hp & Hle); [by apply set_iter_elem|].
      rewrite Counter_getitem_occurrences in Hle. by exists p.
    + intros x. rewrite Hlook, Counter_getitem_occurrences. case_decide as Hx; [done|].
      rewrite occurrences_notin by (by rewrite <- set_iter_elem).
      destruct (products !! x); cbn; [by rewrite restocked_0|done].
    + rewrite Hlines. cbn. unfold allocation. apply list_fmap_ext.
      intros i x Hi. by rewrite Counter_getitem_occurrences.
Qed.

Lemma refused_not_in_stock products product_ids x err :
  refused_for products product_ids x err → ¬ in_stock products product_ids.
Proof.
  intros (Hx & [[Hnone _]|(p & Hp & Hlt & _)]) Hall; destruct (Hall x Hx) as (p' & Hp' & Hle).
  - congruence.
  - assert (p' = p) as -> by congruence. lia.
Qed.

Lemma allocation_product_ids product_ids ids :
  OrderProduct.product_id <$> allocation product_ids ids = ids.
Proof.
  unfold allocation. rewrite <- list_fmap_compose. cbn.
  induction ids as [|a ids IH]; [done|]. cbn. by rewrite IH.
Qed.

Lemma elem_of_allocation product_ids ids op :
  op ∈ allocation product_ids ids ↔
  OrderProduct.product_id op ∈ ids
  ∧ OrderProduct.quantity op = occurrences (OrderProduct.product_id op) product_ids.
Proof.
  unfold allocation. rewrite list_elem_of_fmap. split.
  - intros (x & -> & Hx). done.
  - intros [Hin Hq]. exists (OrderProduct.product_id op). split; [|done].
    destruct op. cbn in *. by rewrite Hq.
Qed.

(** ** Creating an order *)

Lemma add_order_unfold order_id st customer_id d product_ids c :
  Customers st !! customer_id = Some c →
  add_order order_id st
    {| od_customer_id := Some customer_id; od_date := Some d;
       od_product_ids := Some product_ids |} =
  match reserve (Counter product_ids) (set_iter product_ids) (Products st) [] with
  | inl err => (err, st)
  | inr (products, lines) =>
      ((message "New order successfully added!", 201),
       set_Orders (set_Products st products)
         (<[order_id := {| Order.date := d; Order.customer_id := customer_id;
                           Order.products := lines |}]> (Orders st)))
  end.
Proof. intros Hc. unfold add_order. cbn. by rewrite Hc. Qed.

(** C2.  A create-order request for an unknown customer is answered 404 and
    changes nothing.  For a known customer the request succeeds exactly when
    every distinct referenced product exists with stock at least its count
    in the request; the new order then has one row per distinct product id,
    carrying that count, each product's stock is lowered by its count, and
    nothing else moves.  An empty reference list gives an order without rows. *)
Theorem add_order_creates (order_id : Z) (st : db) (customer_id : Z) (d : date)
    (product_ids : list Z) :
  let json := {| od_customer_id := Some customer_id; od_date := Some d;
                 od_product_ids := Some product_ids |} in
  let r := add_order order_id st json in
  (Customers st !! customer_id = None → r = ((error_customer customer_id, 404), st))
  ∧ (is_Some (Customers st !! customer_id) →
      (succeeded r.1 ↔ in_stock (Products st) product_ids)
      ∧ (succeeded r.1 →
          ∃ lines,
            r.1 = (message "New order successfully added!", 201)
            ∧ Orders r.2 =
                <[order_id := {| Order.date := d; Order.customer_id := customer_id;
                                 Order.products := lines |}]> (Orders st)
            ∧ NoDup (OrderProduct.product_id <$> lines)
            ∧ (∀ op, op ∈ lines ↔
                 OrderProduct.product_id op ∈ product_ids
                 ∧ OrderProduct.quantity op
                   = occurrences (OrderProduct.product_id op) product_ids)
            ∧ (∀ x, Products r.2 !! x
                    = restocked (- occurrences x product_ids) <$> Products st !! x)
            ∧ Customers r.2 = Customers st
            ∧ Customer_Accounts r.2 = Customer_Accounts st
            ∧ (product_ids = [] → lines = []))).
Proof.
  intros json r. split.
  - intros Hc. subst r json. unfold add_order. cbn. by rewrite Hc.
  - intros [c Hc]. subst r json. rewrite (add_order_unfold _ _ _ _ _ c Hc).
    pose proof (reserve_request product_ids (Products st)) as Hres.
    destruct (reserve _ _ _ _) as [err|[products lines]].
    + destruct Hres as (x & Hx). pose proof (refused_not_in_stock _ _ _ _ Hx) as Hno.
      assert (¬ succeeded err) as Hfail.
      { destruct Hx as (_ & [[_ ->]|(p & _ & _ & ->)]); unfold succeeded; cbn; lia. }
      cbn. split; [split; intros; done|done].
    + destruct Hres as (Hall & Hlook & ->). cbn. split.
      * split; [done|]. intros _. unfold succeeded. cbn. lia.
      * intros _. eexists. split_and!; try done.
        -- rewrite allocation_product_ids. apply set_iter_NoDup.
        -- intros op. rewrite elem_of_allocation, set_iter_elem. done.
        -- intros ->. pose proof (set_iter_elem [] ) as Hnil.
           destruct (set_iter []) as [|a l]; [done|].
           exfalso. apply (not_elem_of_nil a), Hnil. left.
Qed.

(** C1, as the code has it.  A create-order request that references a
    product that does not exist, or one with less stock than its count in
    the request, changes nothing at all.  If its customer exists it is
    refused with the id of such a product (404 when the product is missing,
    400 when the stock is short), and otherwise with the customer's id. *)
Theorem add_order_refuses (order_id : Z) (st : db) (customer_id : Z) (d : date)
    (product_ids : list Z) (x : Z) :
  let json := {| od_customer_id := Some customer_id; od_date := Some d;
                 od_product_ids := Some product_ids |} in
  let r := add_order order_id st json in
  short_of (Products st) product_ids x →
  r.2 = st
  ∧ match Customers st !! customer_id with
    | None => r.1 = (error_customer customer_id, 404)
    | Some _ => ∃ y, refused_for (Products st) product_ids y r.1
    end.
Proof.
  intros json r [Hx Hbad]. subst r json.
  destruct (Customers st !! customer_id) as [c|] eqn:Hc.
  - rewrite (add_order_unfold _ _ _ _ _ c Hc).
    pose proof (reserve_request product_ids (Products st)) as Hres.
    destruct (reserve _ _ _ _) as [err|[products lines]].
    + done.
    + destruct Hres as (Hall & _). exfalso.
      destruct (Hall x Hx) as (p & Hp & Hle).
      destruct Hbad as [Hnone|(p' & Hp' & Hlt)]; [congruence|].
      assert (p' = p) as -> by congruence. lia.
  - unfold add_order. cbn. by rewrite Hc.
Qed.

(** ** Replacing the products of an order *)

Lemma short_of_not_in_stock products product_ids x :
  short_of products product_ids x → ¬ in_stock products product_ids.
Proof.
  intros [Hx Hbad] Hall. destruct (Hall x Hx) as (p & Hp & Hle).
  destruct Hbad as [Hnone|(p' & Hp' & Hlt)]; [congruence|].
  assert (p' = p) as -> by congruence. lia.
Qed.

Lemma assign_and_commit_ok st0 st order_id order json :
  Customers st = Customers st0 → customer_ok st0 json →
  assign_and_commit st0 st order_id order json =
  ((message "Order was successfully updated!", 200),
   set_Orders st
     (<[order_id :=
          {| Order.date := default (Order.date order) (od_date json);
             Order.customer_id := default (Order.customer_id order) (od_customer_id json);
             Order.products := Order.products order |}]> (Orders st))).
Proof.
  intros Hcs Hok. unfold assign_and_commit, customer_ok in *.
  destruct (od_customer_id json) as [c|]; [|done].
  rewrite Hcs. by rewrite bool_decide_eq_true_2.
Qed.

Lemma assign_and_commit_frame st0 st order_id order json :
  let r := assign_and_commit st0 st order_id order json in
  (r.2 = st0 ∧ r.1 = (exception "IntegrityError", 500))
  ∨ (r.1 = (message "Order was successfully updated!", 200)
     ∧ Products r.2 = Products st ∧ Customers r.2 = Customers st
     ∧ Customer_Accounts r.2 = Customer_Accounts st
     ∧ ∃ o', Orders r.2 = <[order_id := o']> (Orders st)
             ∧ Order.products o' = Order.products order).
Proof.
  unfold assign_and_commit. cbn zeta.
  destruct (match od_customer_id json with Some _ => _ | None => _ end).
  - right. cbn. split_and!; try done. by eexists.
  - left. done.
Qed.

Lemma update_order_unfold st order_id o json product_ids :
  Orders st !! order_id = Some o → od_product_ids json = Some product_ids →
  update_order st order_id json =
  match release (Order.products o) (Products st) with
  | None => ((exception "AttributeError", 500), st)
  | Some restored =>
      match reserve (Counter product_ids) (set_iter product_ids) restored [] with
      | inl err => (err, st)
      | inr (products, lines) =>
          assign_and_commit st (set_Products st products) order_id
            {| Order.date := Order.date o; Order.customer_id := Order.customer_id o;
               Order.products := lines |} json
      end
  end.
Proof. intros Ho Hids. unfold update_order. rewrite Ho. cbn. by rewrite Hids. Qed.

Lemma release_lookup lines products restored :
  release lines products = Some restored →
  ∀ x, restored !! x = restocked (held lines x) <$> products !! x.
Proof.
  intros Hrel. destruct (release_Some lines products) as (restored' & Hrel' & Hlook).
  { by eapply release_resolves. }
  congruence.
Qed.

(** C3.  A request that replaces the products of an existing order first
    adds the quantities of the order's rows back to their products, then
    runs the create-order loop on that restored table.  If the restored
    table cannot serve the new references the request is refused with the
    id of a product it is short of, and the whole database is as it was
    before the request: the order keeps its rows and every stock its value.
    Otherwise (the customer the payload may assign being known) each stock
    ends at its old value plus what the order held minus the new count, and
    the order holds the new allocation. *)
Theorem update_order_replaces (st : db) (order_id : Z) (o : Order.t) (json : OrderData)
    (product_ids : list Z) :
  let r := update_order st order_id json in
  Orders st !! order_id = Some o →
  od_product_ids json = Some product_ids →
  match release (Order.products o) (Products st) with
  | None => r = ((exception "AttributeError", 500), st)
  | Some restored =>
      (∀ x, restored !! x = restocked (held (Order.products o) x) <$> Products st !! x)
      ∧ ((∃ x, short_of restored product_ids x) →
           r.2 = st ∧ ∃ y, refused_for restored product_ids y r.1)
      ∧ (in_stock restored product_ids → customer_ok st json →
           r.1 = (message "Order was successfully updated!", 200)
           ∧ (∀ x, Products r.2 !! x
                   = restocked (held (Order.products o) x - occurrences x product_ids)
                       <$> Products st !! x)
           ∧ Orders r.2 =
               <[order_id :=
                   {| Order.date := default (Order.date o) (od_date json);
                      Order.customer_id :=
                        default (Order.customer_id o) (od_customer_id json);
                      Order.products := allocation product_ids (set_iter product_ids) |}]>
                 (Orders st))
  end.
Proof.
  intros r Ho Hids. subst r. rewrite (update_order_unfold _ _ _ _ _ Ho Hids).
  destruct (release _ _) as [restored|] eqn:Hrel; [|done].
  pose proof (release_lookup _ _ _ Hrel) as Hrest.
  pose proof (reserve_request product_ids restored) as Hres.
  destruct (reserve _ _ _ _) as [err|[products lines]].
  - split_and!; [done| |].
    + intros _. done.
    + intros Hall. destruct Hres as (y & Hy).
      by apply refused_not_in_stock in Hy.
  - destruct Hres as (Hall & Hlook & ->). split_and!; [done| |].
    + intros (x & Hx). by apply short_of_not_in_stock in Hx.
    + intros _ Hok. rewrite assign_and_commit_ok by done. cbn. split_and!; [done| |done].
      intros x. rewrite Hlook, Hrest. destruct (Products st !! x); cbn; [|done].
      rewrite restocked_restocked. do 2 f_equal.
Qed.

(** C10.  When an order's products are replaced, each product is checked
    against its stock after the order's own rows were given back: the
    request succeeds exactly when every referenced product exists and its
    count in the request is at most its stock plus the quantity the order
    holds of it. *)
Theorem update_order_checks_restored_stock (st : db) (order_id : Z) (o : Order.t)
    (json : OrderData) (product_ids : list Z) :
  let r := update_order st order_id json in
  Orders st !! order_id = Some o →
  od_product_ids json = Some product_ids →
  (∀ op, op ∈ Order.products o → is_Some (Products st !! OrderProduct.product_id op)) →
  customer_ok st json →
  (r.1 = (message "Order was successfully updated!", 200) ↔
   ∀ x, x ∈ product_ids →
     ∃ p, Products st !! x = Some p
          ∧ occurrences x product_ids ≤ Product.stock p + held (Order.products o) x).
Proof.
  intros r Ho Hids Hfk Hok. subst r. rewrite (update_order_unfold _ _ _ _ _ Ho Hids).
  destruct (release_Some _ _ Hfk) as (restored & -> & Hrest).
  assert (in_stock restored product_ids ↔
          ∀ x, x ∈ product_ids →
            ∃ p, Products st !! x = Some p
                 ∧ occurrences x product_ids
                   ≤ Product.stock p + held (Order.products o) x) as Hiff.
  { unfold in_stock. split; intros Hall x Hx; destruct (Hall x Hx) as (p & Hp & Hle).
    - rewrite Hrest in Hp. destruct (Products st !! x) as [p0|]; [|done].
      injection Hp as <-. by exists p0.
    - exists (restocked (held (Order.products o) x) p). by rewrite Hrest, Hp. }
  rewrite <- Hiff.
  pose proof (reserve_request product_ids restored) as Hres.
  destruct (reserve _ _ _ _) as [err|[products lines]].
  - destruct Hres as (y & Hy). pose proof (refused_not_in_stock _ _ _ _ Hy).
    destruct Hy as (_ & [[_ ->]|(p & _ & _ & ->)]); cbn; split; intros; done.
  - destruct Hres as (Hall & _). rewrite assign_and_commit_ok by done. done.
Qed.

(** C9.  A request to update an order whose payload carries no product
    references leaves every product and the rows of every order as they
    were, and recomputes nothing; it assigns the fields the payload
    supplies, [date] and [customer_id], and keeps the others. *)
Theorem update_order_fields_only (st : db) (order_id : Z) (json : OrderData) :
  let r := update_order st order_id json in
  od_product_ids json = None →
  Products r.2 = Products st
  ∧ (∀ k, Order.products <$> Orders r.2 !! k = Order.products <$> Orders st !! k)
  ∧ Customers r.2 = Customers st
  ∧ Customer_Accounts r.2 = Customer_Accounts st
  ∧ (Orders st !! order_id = None → r = ((message "Order Not Found", 404), st))
  ∧ (∀ o, Orders st !! order_id = Some o → customer_ok st json →
       r.1 = (message "Order was successfully updated!", 200)
       ∧ Orders r.2 =
           <[order_id :=
               {| Order.date := default (Order.date o) (od_date json);
                  Order.customer_id := default (Order.customer_id o) (od_customer_id json);
                  Order.products := Order.products o |}]> (Orders st)).
Proof.
  intros r Hids. subst r. unfold update_order.
  destruct (Orders st !! order_id) as [o|] eqn:Ho; cbn; [|by split_and!].
  rewrite Hids.
  pose proof (assign_and_commit_frame st st order_id o json) as Hframe. cbn zeta in Hframe.
  split_and!.
  - destruct Hframe as [[-> _]|(_ & -> & _)]; done.
  - intros k. destruct Hframe as [[-> _]|(_ & _ & _ & _ & o' & -> & Ho')]; [done|].
    rewrite lookup_insert. case_decide as Hk; [|done]. subst k. rewrite Ho. cbn. by f_equal.
  - destruct Hframe as [[-> _]|(_ & _ & -> & _)]; done.
  - destruct Hframe as [[-> _]|(_ & _ & _ & -> & _)]; done.
  - done.
  - intros o' [= <-] Hok. by rewrite assign_and_commit_ok.
Qed.

(** ** Stock stays non-negative *)

Lemma held_nonneg lines x :
  (∀ op, op ∈ lines → 0 < OrderProduct.quantity op) → 0 ≤ held lines x.
Proof.
  induction lines as [|op lines IH]; intros Hpos; [done|].
  rewrite held_cons. assert (0 ≤ held lines x) by (apply IH; intros; apply Hpos; by right).
  assert (0 < OrderProduct.quantity op) by (apply Hpos; left).
  case_decide; lia.
Qed.

Lemma released_nonneg (products restored : gmap Z Product.t) lines :
  (∀ x p, products !! x = Some p → 0 ≤ Product.stock p) →
  (∀ op, op ∈ lines → 0 < OrderProduct.quantity op) →
  (∀ x, restored !! x = restocked (held lines x) <$> products !! x) →
  ∀ x p, restored !! x = Some p → 0 ≤ Product.stock p.
Proof.
  intros Hnn Hpos Hlook x p Hp. rewrite Hlook in Hp.
  destruct (products !! x) as [p0|] eqn:Hp0; [|done]. injection Hp as <-. cbn.
  specialize (Hnn x p0 Hp0). pose proof (held_nonneg lines x Hpos). lia.
Qed.

Lemma reserved_nonneg (products products' : gmap Z Product.t) product_ids :
  (∀ x p, products !! x = Some p → 0 ≤ Product.stock p) →
  in_stock products product_ids →
  (∀ x, products' !! x = restocked (- occurrences x product_ids) <$> products !! x) →
  ∀ x p, products' !! x = Some p → 0 ≤ Product.stock p.
Proof.
  intros Hnn Hall Hlook x p Hp. rewrite Hlook in Hp.
  destruct (products !! x) as [p0|] eqn:Hp0; [|done]. injection Hp as <-. cbn.
  destruct (decide (x ∈ product_ids)) as [Hx|Hx].
  - destruct (Hall x Hx) as (p1 & Hp1 & Hle). assert (p1 = p0) as -> by congruence. lia.
  - rewrite occurrences_notin by done. specialize (Hnn x p0 Hp0). lia.
Qed.

Lemma allocation_positive product_ids op :
  op ∈ allocation product_ids (set_iter product_ids) → 0 < OrderProduct.quantity op.
Proof.
  rewrite elem_of_allocation, set_iter_elem. intros [Hin ->]. by apply occurrences_pos.
Qed.

Lemma quantities_positive_insert st order_id o :
  quantities_positive st →
  (∀ op, op ∈ Order.products o → 0 < OrderProduct.quantity op) →
  ∀ k o' op, <[order_id := o]> (Orders st) !! k = Some o' → op ∈ Order.products o' →
    0 < OrderProduct.quantity op.
Proof.
  intros Hq Ho k o' op Hk Hop. rewrite lookup_insert in Hk. case_decide.
  - injection Hk as <-. by apply Ho.
  - by eapply Hq.
Qed.

Lemma add_order_invariant order_id st json :
  quantities_positive st → stock_nonneg st →
  stock_nonneg (add_order order_id st json).2
  ∧ quantities_positive (add_order order_id st json).2.
Proof.
  intros Hq Hs. unfold add_order.
  destruct (order_schema_load false json) as [order_data|]; [|done].
  destruct (od_customer_id order_data) as [customer_id|]; [|done].
  destruct (od_date order_data) as [d|]; [|done].
  destruct (Customers st !! customer_id); [|done].
  destruct (od_product_ids order_data) as [product_ids|]; [|done].
  cbn zeta. pose proof (reserve_request product_ids (Products st)) as Hres.
  destruct (reserve _ _ _ _) as [err|[products lines]]; [done|].
  destruct Hres as (Hall & Hlook & ->). split.
  - intros x p Hp. cbn in Hp. by eapply reserved_nonneg.
  - intros k o op Hk Hop. cbn in Hk.
    eapply (quantities_positive_insert st); [done| |done..].
    cbn. apply allocation_positive.
Qed.

Lemma update_order_invariant st order_id json :
  quantities_positive st → stock_nonneg st →
  stock_nonneg (update_order st order_id json).2
  ∧ quantities_positive (update_order st order_id json).2.
Proof.
  intros Hq Hs. destruct (Orders st !! order_id) as [o|] eqn:Ho.
  2:{ unfold update_order. by rewrite Ho. }
  destruct (od_product_ids json) as [product_ids|] eqn:Hids.
  - rewrite (update_order_unfold _ _ _ _ _ Ho Hids).
    destruct (release _ _) as [restored|] eqn:Hrel; [|done].
    pose proof (release_lookup _ _ _ Hrel) as Hrest.
    pose proof (reserve_request product_ids restored) as Hres.
    destruct (reserve _ _ _ _) as [err|[products lines]]; [done|].
    destruct Hres as (Hall & Hlook & ->).
    assert (∀ x p, products !! x = Some p → 0 ≤ Product.stock p) as Hnn.
    { eapply reserved_nonneg; [|done..]. eapply released_nonneg; [apply Hs| |done].
      intros op Hop. by eapply Hq. }
    match goal with |- context [assign_and_commit ?a ?b ?c ?d ?e] =>
      pose proof (assign_and_commit_frame a b c d e) as Hframe end.
    cbn zeta in Hframe.
    destruct Hframe as [[-> _]|(_ & HP & _ & _ & o' & HO & Ho')]; [done|]. split.
    + intros x p. rewrite HP. cbn. apply Hnn.
    + intros k o1 op. rewrite HO. cbn.
      apply (quantities_positive_insert st); [done|].
      rewrite Ho'. cbn. apply allocation_positive.
  - unfold update_order. rewrite Ho. cbn. rewrite Hids.
    pose proof (assign_and_commit_frame st st order_id o json) as Hframe.
    cbn zeta in Hframe.
    destruct Hframe as [[-> _]|(_ & HP & _ & _ & o' & HO & Ho')]; [done|]. split.
    + intros x p. rewrite HP. apply Hs.
    + intros k o1 op. rewrite HO.
      apply (quantities_positive_insert st); [done|].
      rewrite Ho'. intros op' Hop'. by eapply Hq.
Qed.

Lemma delete_order_invariant st order_id :
  quantities_positive st → stock_nonneg st →
  stock_nonneg (delete_order st order_id).2
  ∧ quantities_positive (delete_order st order_id).2.
Proof.
  intros Hq Hs. unfold delete_order.
  destruct (Orders st !! order_id) as [o|] eqn:Ho; [|done].
  destruct (release _ _) as [restored|] eqn:Hrel; [|done].
  pose proof (release_lookup _ _ _ Hrel) as Hrest. split.
  - intros x p Hp. cbn in Hp. eapply released_nonneg; [apply Hs| |done..].
    intros op Hop. by eapply Hq.
  - intros k o1 op Hk Hop. cbn in Hk. apply lookup_delete_Some in Hk as [_ Hk].
    by eapply Hq.
Qed.

Lemma update_product_invariant st product_id restock json :
  quantities_positive st → stock_nonneg st →
  stock_nonneg (update_product st product_id restock json).2
  ∧ quantities_positive (update_product st product_id restock json).2.
Proof.
  intros Hq Hs.
  assert (∀ p', (∀ p, Products st !! product_id = Some p → 0 ≤ Product.stock p') →
            is_Some (Products st !! product_id) →
            stock_nonneg (set_Products st (<[product_id := p']> (Products st)))) as Hins.
  { intros p' Hp' [p0 Hp0] x p Hp. cbn in Hp. rewrite lookup_insert in Hp. case_decide.
    - injection Hp as <-. by eapply Hp'.
    - by eapply Hs. }
  unfold update_product.
  destruct restock as [[|c restock]|].
  - destruct (Products st !! product_id) as [p|] eqn:Hp; [|done].
    destruct (product_schema_load_partial json) as [data|] eqn:Hload; [|done].
    split; [|done]. cbn [snd]. apply Hins; [|done]. intros p0 [= <-]. cbn.
    unfold product_schema_load_partial in Hload.
    destruct (valid_opt valid_stock (pd_stock json)) eqn:Hv;
      [|by rewrite andb_false_r in Hload].
    destruct (_ && _) in Hload; [|done]. injection Hload as <-.
    destruct (pd_stock json) as [s|]; cbn in *; [|by eapply Hs].
    unfold valid_stock in Hv. lia.
  - destruct (negb _ || _) eqn:Hbad; [done|].
    apply orb_false_iff in Hbad as [_ Hpos]. apply Z.leb_gt in Hpos.
    destruct (Products st !! product_id) as [p|] eqn:Hp; [|done].
    split; [|done]. cbn [snd]. apply Hins; [|done]. intros p0 [= <-].
    unfold Product.set_stock. cbn [Product.stock].
    specialize (Hs _ _ Hp). lia.
  - destruct (Products st !! product_id) as [p|] eqn:Hp; [|done].
    destruct (product_schema_load_partial json) as [data|] eqn:Hload; [|done].
    split; [|done]. cbn [snd]. apply Hins; [|done]. intros p0 [= <-]. cbn.
    unfold product_schema_load_partial in Hload.
    destruct (valid_opt valid_stock (pd_stock json)) eqn:Hv;
      [|by rewrite andb_false_r in Hload].
    destruct (_ && _) in Hload; [|done]. injection Hload as <-.
    destruct (pd_stock json) as [s|]; cbn in *; [|by eapply Hs].
    unfold valid_stock in Hv. lia.
Qed.

(** C4.  From a state where every stock is non-negative (and, as in every
    state the endpoints produce, every order row has a positive quantity),
    creating an order, updating an order, deleting an order and updating or
    restocking a product each end in a state with every stock non-negative
    and every row quantity positive. *)
Theorem stock_stays_nonneg (st : db) :
  quantities_positive st → stock_nonneg st →
  (∀ order_id json,
     stock_nonneg (add_order order_id st json).2
     ∧ quantities_positive (add_order order_id st json).2)
  ∧ (∀ order_id json,
       stock_nonneg (update_order st order_id json).2
       ∧ quantities_positive (update_order st order_id json).2)
  ∧ (∀ order_id,
       stock_nonneg (delete_order st order_id).2
       ∧ quantities_positive (delete_order st order_id).2)
  ∧ (∀ product_id restock json,
       stock_nonneg (update_product st product_id restock json).2
       ∧ quantities_positive (update_product st product_id restock json).2).
Proof.
  intros Hq Hs. split_and!; intros.
  - by apply add_order_invariant.
  - by apply update_order_invariant.
  - by apply delete_order_invariant.
  - by apply update_product_invariant.
Qed.

(** ** Allocations *)

(** C5.  The allocation computed from a sequence of product references
    maps every id to the number of times it occurs in the sequence (ids that
    do not occur have no entry and read as 0), and any reordering of the
    sequence gives the same map. *)
Theorem Counter_counts (product_ids : list Z) :
  (∀ x, Counter_getitem (Counter product_ids) x = occurrences x product_ids)
  ∧ (∀ x, Counter product_ids !! x =
          if decide (x ∈ product_ids) then Some (occurrences x product_ids) else None)
  ∧ (∀ product_ids', product_ids' ≡ₚ product_ids →
       Counter product_ids' = Counter product_ids).
Proof.
  split_and!.
  - apply Counter_getitem_occurrences.
  - apply Counter_lookup.
  - intros product_ids' Hp. by apply Counter_Permutation.
Qed.

(** ** Deleting an order *)

(** C6.  Deleting an existing order (whose rows point at products, as the
    foreign key demands) adds to each product's stock the quantities of the
    order's rows for it, once, removes the order with its rows and touches
    nothing else; deleting the same id again is answered 404 and changes
    nothing. *)
Theorem delete_order_restores (st : db) (order_id : Z) (o : Order.t) :
  let r := delete_order st order_id in
  Orders st !! order_id = Some o →
  (∀ op, op ∈ Order.products o → is_Some (Products st !! OrderProduct.product_id op)) →
  r.1 = (message "Order removed successfully!", 200)
  ∧ (∀ x, Products r.2 !! x = restocked (held (Order.products o) x) <$> Products st !! x)
  ∧ Orders r.2 = delete order_id (Orders st)
  ∧ Customers r.2 = Customers st
  ∧ Customer_Accounts r.2 = Customer_Accounts st
  ∧ delete_order r.2 order_id = ((error "Order not found", 404), r.2).
Proof.
  intros r Ho Hfk. subst r.
  destruct (release_Some _ _ Hfk) as (restored & Hrel & Hlook).
  assert (delete_order st order_id =
          ((message "Order removed successfully!", 200),
           set_Orders (set_Products st restored) (delete order_id (Orders st)))) as ->.
  { unfold delete_order. by rewrite Ho, Hrel. }
  cbn. split_and!; try done.
  unfold delete_order. cbn. by rewrite lookup_delete_eq.
Qed.

(** ** Accounts *)

Lemma select_CustomerAccount_nonempty st username :
  select_CustomerAccount st username ≠ [] ↔
  ∃ k a, Customer_Accounts st !! k = Some a ∧ CustomerAccount.username a = username.
Proof.
  unfold select_CustomerAccount. split.
  - intros Hne. destruct (filter _ _) as [|[k a] l] eqn:E; [done|].
    assert ((k, a) ∈ filter (λ row : Z * CustomerAccount.t,
                               CustomerAccount.username row.2 = username)
                            (map_to_list (Customer_Accounts st))) as Hin
      by (rewrite E; left).
    apply list_elem_of_filter in Hin as [Hu Hin]. apply elem_of_map_to_list in Hin.
    by exists k, a.
  - intros (k & a & Hk & Hu) E.
    assert ((k, a) ∈ filter (λ row : Z * CustomerAccount.t,
                               CustomerAccount.username row.2 = username)
                            (map_to_list (Customer_Accounts st))) as Hin.
    { apply list_elem_of_filter. split; [done|]. by apply elem_of_map_to_list. }
    rewrite E in Hin. by apply elem_of_nil in Hin.
Qed.

(** C7.  Creating an account: a payload the schema accepts is refused with
    404 when its customer does not exist, with 400 "Only one account ..."
    when that customer already has an account, and with 400 when any
    account, whoever owns it, already has the username ("Usernames must be
    unique..." unless the one-account refusal came first).  Every refusal
    leaves the database as it was; otherwise exactly the new account row is
    inserted. *)
Theorem add_customer_account_guards (st : db) (json : CustomerAccountData) :
  let r := add_customer_account st json in
  match customer_account_schema_load json with
  | None => r = ((err_messages, 400), st)
  | Some (customer_id, username, password) =>
      let taken := ∃ k a, Customer_Accounts st !! k = Some a
                          ∧ CustomerAccount.username a = username in
      (Customers st !! customer_id = None →
         r = ((error "Customer must exist before adding account...", 404), st))
      ∧ (is_Some (Customers st !! customer_id) →
         is_Some (Customer_Accounts st !! customer_id) →
         r = ((error "Only one account may exist per customer...", 400), st))
      ∧ (is_Some (Customers st !! customer_id) → taken →
         r.2 = st
         ∧ (r.1 = (error "Only one account may exist per customer...", 400)
            ∨ r.1 = (error "Usernames must be unique...", 400))
         ∧ (Customer_Accounts st !! customer_id = None →
            r.1 = (error "Usernames must be unique...", 400)))
      ∧ (¬ succeeded r.1 → r.2 = st)
      ∧ (succeeded r.1 →
         is_Some (Customers st !! customer_id)
         ∧ Customer_Accounts st !! customer_id = None
         ∧ ¬ taken
         ∧ r = ((message "New customer account successfully added!", 201),
                set_Customer_Accounts st
                  (<[customer_id := {| CustomerAccount.username := username;
                                       CustomerAccount.password := password |}]>
                     (Customer_Accounts st))))
  end.
Proof.
  intros r. subst r. unfold add_customer_account.
  destruct (customer_account_schema_load json) as [[[customer_id username] password]|];
    [|done].
  cbn zeta. pose proof (select_CustomerAccount_nonempty st username) as Hsel.
  destruct (Customers st !! customer_id) as [c|] eqn:Hc.
  2:{ split_and!; try done. unfold succeeded. cbn. lia. }
  destruct (Customer_Accounts st !! customer_id) as [a|] eqn:Ha.
  { split_and!; try done.
    - intros _ _. split_and!; [done|by left|done].
    - unfold succeeded. cbn. lia. }
  destruct (select_CustomerAccount st username) as [|row rows].
  - assert (¬ ∃ k a, Customer_Accounts st !! k = Some a
                     ∧ CustomerAccount.username a = username) as Hfree.
    { intros Ht. by apply Hsel in Ht. }
    split_and!; try done.
    intros Hfail. exfalso. apply Hfail. unfold succeeded. cbn. lia.
  - split_and!; try done.
    + intros _ _. split_and!; [done|by right|done].
    + unfold succeeded. cbn. lia.
Qed.

(** ** Deleting a product *)

Lemma select_OrderProduct_nonempty st product_id :
  select_OrderProduct st product_id ≠ [] ↔
  ∃ k o op, Orders st !! k = Some o ∧ op ∈ Order.products o
            ∧ OrderProduct.product_id op = product_id.
Proof.
  unfold select_OrderProduct.
  set (rows := map_to_list (Orders st) ≫= λ row, Order.products row.2).
  assert (∀ op, op ∈ rows ↔ ∃ k o, Orders st !! k = Some o ∧ op ∈ Order.products o) as Hrows.
  { intros op. unfold rows. rewrite list_elem_of_bind. split.
    - intros ([k o] & Hop & Hin). apply elem_of_map_to_list in Hin. by exists k, o.
    - intros (k & o & Hk & Hop). exists (k, o). split; [done|].
      by apply elem_of_map_to_list. }
  split.
  - intros Hne. destruct (filter _ rows) as [|op l] eqn:E; [done|].
    assert (op ∈ filter (λ op, OrderProduct.product_id op = product_id) rows) as Hin
      by (rewrite E; left).
    apply list_elem_of_filter in Hin as [Hp Hin]. apply Hrows in Hin as (k & o & Hk & Hop).
    by exists k, o, op.
  - intros (k & o & op & Hk & Hop & Hp) E.
    assert (op ∈ filter (λ op, OrderProduct.product_id op = product_id) rows) as Hin.
    { apply list_elem_of_filter. split; [done|]. apply Hrows. by exists k, o. }
    rewrite E in Hin. by apply elem_of_nil in Hin.
Qed.

(** C8.  Deleting an existing product is refused (400, "Cannot delete
    product with associated orders") exactly when some row of some order
    references it, and then nothing changes; otherwise the product is
    removed.  Either way customers, accounts, orders and all other products
    are as before. *)
Theorem delete_product_guard (st : db) (product_id : Z) (p : Product.t) :
  let r := delete_product st product_id in
  Products st !! product_id = Some p →
  (r.1 = (error "Cannot delete product with associated orders", 400) ↔
   ∃ k o op, Orders st !! k = Some o ∧ op ∈ Order.products o
             ∧ OrderProduct.product_id op = product_id)
  ∧ (r.1 = (error "Cannot delete product with associated orders", 400) → r.2 = st)
  ∧ (r.1 ≠ (error "Cannot delete product with associated orders", 400) →
     r.1 = (message "Product successfully deleted!", 200)
     ∧ Products r.2 = delete product_id (Products st))
  ∧ Customers r.2 = Customers st
  ∧ Customer_Accounts r.2 = Customer_Accounts st
  ∧ Orders r.2 = Orders st
  ∧ (∀ x, x ≠ product_id → Products r.2 !! x = Products st !! x).
Proof.
  intros r Hp. subst r. unfold delete_product. rewrite Hp.
  pose proof (select_OrderProduct_nonempty st product_id) as Hsel.
  destruct (select_OrderProduct st product_id) as [|op l]; cbn.
  - split_and!; try done.
    + split; [done|]. intros Hex. by apply Hsel in Hex.
    + intros x Hx. by rewrite lookup_delete_ne.
  - split_and!; try done. split; [|done]. intros _. by apply Hsel.
Qed.

End Orders.

(** * Worked examples

    The iteration order of the examples is [remove_dups], one enumeration
    of the distinct ids without repetition. *)

Section Examples.
Import Shop.

Lemma shop_lines_resolve op :
  op ∈ Order.products order10 → is_Some (Products shop !! OrderProduct.product_id op).
Proof.
  intros Hop. repeat (apply elem_of_cons in Hop as [->|Hop]); [by eexists..|].
  by apply elem_of_nil in Hop.
Defined.

Lemma shop_quantities_positive : quantities_positive shop.
Proof.
  intros k o op Hk Hop. unfold shop in Hk. cbn [Orders] in Hk.
  apply lookup_singleton_Some in Hk as [_ <-].
  repeat (apply elem_of_cons in Hop as [->|Hop]); [done..|].
  by apply elem_of_nil in Hop.
Defined.

Lemma shop_stock_nonneg : stock_nonneg shop.
Proof.
  intros x p Hp. unfold shop in Hp. cbn [Products] in Hp.
  repeat (apply lookup_insert_Some in Hp as [[_ <-]|[_ Hp]]; [done|]).
  by apply lookup_singleton_Some in Hp as [_ <-].
Defined.

(** The example of the specification: order 10 holds [1:2, 2:1] and is
    replaced by [1:1, 3:3]; product 1 gains one, product 2 gains one,
    product 3 loses three. *)
Example replace_example :
  update_order remove_dups shop 10 (replace [1; 3; 3; 3]) =
  ((message "Order was successfully updated!", 200),
   set_Orders
     (set_Products shop
        (<[1 := Product.set_stock A 6]>
           (<[2 := Product.set_stock B 6]> {[ 3 := Product.set_stock C 0 ]})))
     {[ 10 := {| Order.date := day1; Order.customer_id := 1;
                 Order.products :=
                   [ {| OrderProduct.product_id := 1; OrderProduct.quantity := 1 |};
                     {| OrderProduct.product_id := 3; OrderProduct.quantity := 3 |} ] |} ]}).
Proof. vm_compute. reflexivity. Qed.

(** One more of product 3 than there is: refused, and the shop is as before. *)
Example replace_example_short :
  update_order remove_dups shop 10 (replace [1; 3; 3; 3; 3]) =
  ((error_supply 3, 400), shop).
Proof. vm_compute. reflexivity. Qed.

(** C1, as stated, fails on a request whose customer is unknown: the
    request references product 9, which does not exist, yet the answer names
    customer 2 and no product. *)
Lemma add_order_names_customer_first :
  short_of (Products shop) [9] 9
  ∧ add_order remove_dups 11 shop (create 2 [9]) = ((error_customer 2, 404), shop)
  ∧ (∀ y, (add_order remove_dups 11 shop (create 2 [9])).1 ≠ (error_product y, 404)
          ∧ (add_order remove_dups 11 shop (create 2 [9])).1 ≠ (error_supply y, 400)).
Proof.
  split_and!.
  - split; [left|by left].
  - vm_compute. reflexivity.
  - intros y. split; discriminate.
Qed.

Lemma shop_short_of_chisels : short_of (Products shop) [1; 3; 3; 3; 3] 3.
Proof.
  split; [right; left|]. right. exists C. split; [reflexivity|]. vm_compute. reflexivity.
Defined.

Lemma add_order_refuses_witness :
  short_of (Products shop) [1; 3; 3; 3; 3] 3
  ∧ (add_order remove_dups 11 shop (create 1 [1; 3; 3; 3; 3])).2 = shop
  ∧ ∃ y, refused_for (Products shop) [1; 3; 3; 3; 3] y
           (add_order remove_dups 11 shop (create 1 [1; 3; 3; 3; 3])).1.
Proof.
  split; [exact shop_short_of_chisels|].
  exact (add_order_refuses remove_dups NoDup_remove_dups elem_of_remove_dups
           11 shop 1 day1 [1; 3; 3; 3; 3] 3 shop_short_of_chisels).
Defined.

Lemma shop_in_stock : in_stock (Products shop) [1; 3; 1].
Proof.
  intros x Hx. repeat (apply elem_of_cons in Hx as [->|Hx]).
  - exists A. split; [reflexivity|]. vm_compute. discriminate.
  - exists C. split; [reflexivity|]. vm_compute. discriminate.
  - exists A. split; [reflexivity|]. vm_compute. discriminate.
  - by apply elem_of_nil in Hx.
Defined.

Lemma add_order_creates_witness :
  succeeded (add_order remove_dups 11 shop (create 1 [1; 3; 1])).1
  ∧ (add_order remove_dups 11 shop (create 1 []) ).1
    = (message "New order successfully added!", 201).
Proof.
  split.
  - apply (add_order_creates remove_dups NoDup_remove_dups elem_of_remove_dups
             11 shop 1 day1 [1; 3; 1]); [by eexists|]. exact shop_in_stock.
  - destruct (add_order_creates remove_dups NoDup_remove_dups elem_of_remove_dups
                11 shop 1 day1 []) as [_ Hknown].
    destruct Hknown as [Hiff Hsucc]; [by eexists|].
    destruct Hsucc as (lines & Hr & _); [|exact Hr].
    apply Hiff. intros x Hx. by apply elem_of_nil in Hx.
Defined.

Lemma update_order_replaces_witness :
  Orders shop !! 10 = Some order10
  ∧ od_product_ids (replace [1; 3; 3; 3]) = Some [1; 3; 3; 3]
  ∧ (update_order remove_dups shop 10 (replace [1; 3; 3; 3])).1
    = (message "Order was successfully updated!", 200)
  ∧ ∀ x, Products (update_order remove_dups shop 10 (replace [1; 3; 3; 3])).2 !! x
         = restocked (held (Order.products order10) x - occurrences x [1; 3; 3; 3])
             <$> Products shop !! x.
Proof.
  split; [reflexivity|]. split; [reflexivity|].
  pose proof (update_order_replaces remove_dups NoDup_remove_dups elem_of_remove_dups
                shop 10 order10 (replace [1; 3; 3; 3]) [1; 3; 3; 3]
                eq_refl eq_refl) as H.
  destruct (release (Order.products order10) (Products shop)) as [restored|] eqn:Hrel.
  2:{ vm_compute in Hrel. discriminate. }
  destruct H as (Hrest & _ & Hgood).
  destruct Hgood as (Hr & Hstock & _); [|exact I|by split].
  intros x Hx. rewrite Hrest. repeat (apply elem_of_cons in Hx as [->|Hx]).
  - eexists. split; [reflexivity|]. vm_compute. discriminate.
  - eexists. split; [reflexivity|]. vm_compute. discriminate.
  - eexists. split; [reflexivity|]. vm_compute. discriminate.
  - eexists. split; [reflexivity|]. vm_compute. discriminate.
  - by apply elem_of_nil in Hx.
Defined.

(** Six of product 1 are asked for while its visible stock is five; the two
    that order 10 holds make up for it. *)
Lemma update_order_checks_restored_stock_witness :
  Product.stock A < occurrences 1 [1; 1; 1; 1; 1; 1]
  ∧ (update_order remove_dups shop 10 (replace [1; 1; 1; 1; 1; 1])).1
    = (message "Order was successfully updated!", 200).
Proof.
  split; [vm_compute; reflexivity|].
  apply (update_order_checks_restored_stock remove_dups NoDup_remove_dups
           elem_of_remove_dups shop 10 order10 (replace [1; 1; 1; 1; 1; 1])
           [1; 1; 1; 1; 1; 1] eq_refl eq_refl shop_lines_resolve I).
  intros x Hx. exists A.
  repeat (apply elem_of_cons in Hx as [->|Hx]);
    try (split; [reflexivity|vm_compute; discriminate]).
  by apply elem_of_nil in Hx.
Defined.

Lemma update_order_fields_only_witness :
  od_product_ids redate = None
  ∧ Products (update_order remove_dups shop 10 redate).2 = Products shop
  ∧ Order.products <$> Orders (update_order remove_dups shop 10 redate).2 !! 10
    = Some (Order.products order10).
Proof.
  split; [reflexivity|].
  destruct (update_order_fields_only remove_dups shop 10 redate eq_refl)
    as (Hp & Hl & _).
  split; [exact Hp|]. rewrite Hl. reflexivity.
Defined.

Lemma stock_stays_nonneg_witness :
  quantities_positive shop ∧ stock_nonneg shop
  ∧ stock_nonneg (add_order remove_dups 11 shop (create 1 [3; 3; 3])).2
  ∧ stock_nonneg (update_order remove_dups shop 10 (replace [1; 3; 3; 3])).2
  ∧ stock_nonneg (delete_order shop 10).2
  ∧ stock_nonneg (update_product shop 3 (Some "12") {| pd_name := None; pd_price := None;
                                                       pd_stock := None |}).2.
Proof.
  split; [exact shop_quantities_positive|]. split; [exact shop_stock_nonneg|].
  destruct (stock_stays_nonneg remove_dups NoDup_remove_dups elem_of_remove_dups shop
              shop_quantities_positive shop_stock_nonneg) as (Ha & Hu & Hd & Hp).
  split_and!; [apply Ha|apply Hu|apply Hd|apply Hp].
Defined.

Lemma delete_order_restores_witness :
  Orders shop !! 10 = Some order10
  ∧ (delete_order shop 10).1 = (message "Order removed successfully!", 200)
  ∧ Orders (delete_order shop 10).2 = delete 10 (Orders shop)
  ∧ delete_order (delete_order shop 10).2 10
    = ((error "Order not found", 404), (delete_order shop 10).2).
Proof.
  split; [reflexivity|].
  destruct (delete_order_restores shop 10 order10 eq_refl shop_lines_resolve)
    as (Hr & _ & Ho & _ & _ & Hagain).
  done.
Defined.

Lemma delete_product_guard_witness :
  Products shop !! 3 = Some C
  ∧ (delete_product shop 3).1 = (message "Product successfully deleted!", 200)
  ∧ Products (delete_product shop 3).2 = delete 3 (Products shop).
Proof.
  split; [reflexivity|].
  destruct (delete_product_guard shop 3 C eq_refl) as (_ & _ & Hfree & _).
  apply Hfree. vm_compute. discriminate.
Defined.

End Examples.

(** * The remaining writers of accounts and products *)

(** ** DELETE /customer_accounts/<customer_id> *)

Definition delete_customer_account (st : db) (customer_id : Z) : response * db :=
  match Customer_Accounts st !! customer_id with
  | None => ((error "Customer account not found...", 404), st)
  | Some account =>
      ((message "Customer account removed successfully!", 200),
       set_Customer_Accounts st (delete customer_id (Customer_Accounts st)))
  end.

(** ** POST /products *)

(** The JSON body: one object, or an array of objects. *)
Inductive ProductsJson :=
| product_object (d : ProductData)
| product_array (l : list ProductData).

(** [product_schema.load(request.json)]: [name] and [price] are required,
    [stock] is not; the validators are those of the partial load. *)
Definition product_schema_load (json : ProductData) : option (string * float * option Z) :=
  match pd_name json, pd_price json with
  | Some name, Some price =>
      if valid_name name && valid_price price && valid_opt valid_stock (pd_stock json)
      then Some (name, price, pd_stock json) else None
  | _, _ => None
  end.

(** The [Product] built from the loaded fields; a row inserted without
    [stock] takes the column default 1. *)
Definition new_Product (product_data : string * float * option Z) : Product.t :=
  {| Product.name := product_data.1.1;
     Product.price := product_data.1.2;
     Product.stock := default 1 product_data.2 |}.

(** [session.add_all]: the rows in order, [key i] being the key the store's
    AUTO_INCREMENT gives the [i]-th row inserted in this unit of work. *)
Definition add_all (key : nat → Z) (rows : list Product.t) (products : gmap Z Product.t)
  : gmap Z Product.t :=
  foldl (λ ps row, <[row.1 := row.2]> ps) products (imap (λ i p, (key i, p)) rows).

Definition add_product (key : nat → Z) (st : db) (many : option string)
    (json : ProductsJson) : response * db :=
  if decide (many = Some "true")
  then
    match json with
    | product_array l =>
        match mapM product_schema_load l with
        | None => ((err_messages, 400), st)
        | Some products_data =>
            ((message "New products successfully added", 201),
             set_Products st (add_all key (new_Product <$> products_data) (Products st)))
        end
    | product_object _ => ((err_messages, 400), st)
    end
  else
    match json with
    | product_object d =>
        match product_schema_load d with
        | None => ((err_messages, 400), st)
        | Some product_data =>
            ((message "New product successfully added!", 201),
             set_Products st (add_all key [new_Product product_data] (Products st)))
        end
    | product_array _ => ((err_messages, 400), st)
    end.

(** ** Vocabulary of the further statements *)

(** The sum of a list of integers. *)
Definition Zsum (l : list Z) : Z := foldr Z.add 0 l.

(** What the orders of the table [orders] hold of product [x], all together. *)
Definition allocated (orders : gmap Z Order.t) (x : Z) : Z :=
  Zsum ((λ row, held (Order.products row.2) x) <$> map_to_list orders).

(** The sum of the quantities of the rows [lines]. *)
Definition total_quantity (lines : list OrderProduct.t) : Z :=
  Zsum (OrderProduct.quantity <$> lines).

(** The composite primary key of [Order_Product]: within an order no two
    rows share a product. *)
Definition rows_keyed (st : db) : Prop :=
  ∀ order_id o, Orders st !! order_id = Some o →
    NoDup (OrderProduct.product_id <$> Order.products o).

(** [unique=True] on [Customer_Accounts.username]. *)
Definition usernames_unique (st : db) : Prop :=
  ∀ k1 k2 a1 a2,
    Customer_Accounts st !! k1 = Some a1 → Customer_Accounts st !! k2 = Some a2 →
    CustomerAccount.username a1 = CustomerAccount.username a2 → k1 = k2.

(** The foreign key [Customer_Accounts.customer_id -> Customers.customer_id]. *)
Definition accounts_owned (st : db) : Prop :=
  ∀ k a, Customer_Accounts st !! k = Some a → is_Some (Customers st !! k).

(** * Further properties *)

Section Further.

Variable set_iter : list Z → list Z.
Hypothesis set_iter_NoDup : ∀ l, NoDup (set_iter l).
Hypothesis set_iter_elem : ∀ l x, x ∈ set_iter l ↔ x ∈ l.

(** ** The outcomes of the order endpoints *)

Lemma set_Products_id st : set_Products st (Products st) = st.
Proof. by destruct st. Qed.

Lemma not_succeeded_4xx (b : body) (code : Z) : 400 ≤ code → ¬ succeeded (b, code).
Proof. unfold succeeded. cbn. lia. Qed.

Lemma refused_not_succeeded products product_ids x err :
  refused_for products product_ids x err → ¬ succeeded err.
Proof.
  intros (_ & [[_ ->]|(p & _ & _ & ->)]); by apply not_succeeded_4xx.
Qed.

Lemma assign_and_commit_cases st0 st order_id order json :
  Customers st = Customers st0 →
  (customer_ok st0 json
   ∧ assign_and_commit st0 st order_id order json =
     ((message "Order was successfully updated!", 200),
      set_Orders st
        (<[order_id :=
             {| Order.date := default (Order.date order) (od_date json);
                Order.customer_id := default (Order.customer_id order) (od_customer_id json);
                Order.products := Order.products order |}]> (Orders st))))
  ∨ (¬ customer_ok st0 json
     ∧ assign_and_commit st0 st order_id order json
       = ((exception "IntegrityError", 500), st0)).
Proof.
  intros Hcs. unfold assign_and_commit, customer_ok. rewrite Hcs.
  destruct (od_customer_id json) as [c|]; [|by left].
  destruct (Customers st0 !! c) as [cust|] eqn:Hc.
  - left. split; [by eexists|]. by rewrite bool_decide_eq_true_2.
  - right. split; [by intros [? ?]|]. rewrite bool_decide_eq_false_2; [done|].
    by intros [? ?].
Qed.

Lemma add_order_cases order_id st json :
  let r := add_order set_iter order_id st json in
  (¬ succeeded r.1 ∧ r.2 = st)
  ∨ ∃ customer_id d product_ids products,
      json = {| od_customer_id := Some customer_id; od_date := Some d;
                od_product_ids := Some product_ids |}
      ∧ is_Some (Customers st !! customer_id)
      ∧ in_stock (Products st) product_ids
      ∧ (∀ x, products !! x = restocked (- occurrences x product_ids) <$> Products st !! x)
      ∧ r = ((message "New order successfully added!", 201),
             set_Orders (set_Products st products)
               (<[order_id :=
                    {| Order.date := d; Order.customer_id := customer_id;
                       Order.products := allocation product_ids (set_iter product_ids) |}]>
                  (Orders st))).
Proof.
  destruct json as [[customer_id|] [d|] [product_ids|]]; cbn zeta;
    try (left; split; [by apply not_succeeded_4xx|done]).
  - destruct (Customers st !! customer_id) as [c|] eqn:Hc.
    + rewrite (add_order_unfold set_iter _ _ _ _ _ c Hc).
      pose proof (reserve_request set_iter set_iter_NoDup set_iter_elem
                    product_ids (Products st)) as Hres.
      destruct (reserve _ _ _ _) as [err|[products lines]].
      * left. destruct Hres as (x & Hx). split; [|done].
        by eapply refused_not_succeeded.
      * right. destruct Hres as (Hall & Hlook & ->).
        exists customer_id, d, product_ids, products. by split_and!.
    + left. unfold add_order. cbn. rewrite Hc. split; [by apply not_succeeded_4xx|done].
  - left. unfold add_order. cbn.
    destruct (Customers st !! customer_id); (split; [by apply not_succeeded_4xx|done]).
Qed.

Lemma update_order_cases st order_id json :
  let r := update_order set_iter st order_id json in
  (¬ succeeded r.1 ∧ r.2 = st)
  ∨ ∃ o products lines,
      Orders st !! order_id = Some o
      ∧ customer_ok st json
      ∧ r = ((message "Order was successfully updated!", 200),
             set_Orders (set_Products st products)
               (<[order_id :=
                    {| Order.date := default (Order.date o) (od_date json);
                       Order.customer_id :=
                         default (Order.customer_id o) (od_customer_id json);
                       Order.products := lines |}]> (Orders st)))
      ∧ match od_product_ids json with
        | None => products = Products st ∧ lines = Order.products o
        | Some product_ids =>
            ∃ restored,
              release (Order.products o) (Products st) = Some restored
              ∧ in_stock restored product_ids
              ∧ (∀ x, products !! x
                      = restocked (- occurrences x product_ids) <$> restored !! x)
              ∧ lines = allocation product_ids (set_iter product_ids)
        end.
Proof.
  cbn zeta. destruct (Orders st !! order_id) as [o|] eqn:Ho.
  2:{ left. unfold update_order. rewrite Ho. split; [by apply not_succeeded_4xx|done]. }
  destruct (od_product_ids json) as [product_ids|] eqn:Hids.
  - rewrite (update_order_unfold set_iter _ _ _ _ _ Ho Hids).
    destruct (release _ _) as [restored|] eqn:Hrel.
    2:{ left. split; [by apply not_succeeded_4xx|done]. }
    pose proof (reserve_request set_iter set_iter_NoDup set_iter_elem
                  product_ids restored) as Hres.
    destruct (reserve _ _ _ _) as [err|[products lines]].
    + left. destruct Hres as (x & Hx). split; [|done]. by eapply refused_not_succeeded.
    + destruct Hres as (Hall & Hlook & ->).
      match goal with |- context [assign_and_commit ?a ?b ?c ?d ?e] =>
        destruct (assign_and_commit_cases a b c d e) as [[Hok ->]|[Hno ->]]; [done| |] end.
      * right. exists o, products, (allocation product_ids (set_iter product_ids)).
        split_and!; [done..|]. by exists restored.
      * left. split; [by apply not_succeeded_4xx|done].
  - unfold update_order. rewrite Ho. cbn. rewrite Hids.
    destruct (assign_and_commit_cases st st order_id o json) as [[Hok ->]|[Hno ->]]; [done| |].
    + right. exists o, (Products st), (Order.products o).
      rewrite set_Products_id. by split_and!.
    + left. split; [by apply not_succeeded_4xx|done].
Qed.

Lemma delete_order_cases st order_id :
  let r := delete_order st order_id in
  (¬ succeeded r.1 ∧ r.2 = st)
  ∨ ∃ o restored,
      Orders st !! order_id = Some o
      ∧ release (Order.products o) (Products st) = Some restored
      ∧ r = ((message "Order removed successfully!", 200),
             set_Orders (set_Products st restored) (delete order_id (Orders st))).
Proof.
  cbn zeta. unfold delete_order.
  destruct (Orders st !! order_id) as [o|] eqn:Ho.
  2:{ left. split; [by apply not_succeeded_4xx|done]. }
  destruct (release _ _) as [restored|] eqn:Hrel.
  - right. by exists o, restored.
  - left. split; [by apply not_succeeded_4xx|done].
Qed.

(** ** A refused request changes nothing *)

Lemma succeeded_2xx (b : body) (code : Z) : 200 ≤ code < 300 → succeeded (b, code).
Proof. done. Qed.


(** ** What an allocation holds *)

Lemma occurrences_cons x a l :
  occurrences x (a :: l) = (if decide (a = x) then 1 else 0) + occurrences x l.
Proof.
  unfold occurrences. rewrite filter_cons. case_decide; cbn [length]; lia.
Qed.

Lemma held_allocation_list product_ids l x :
  NoDup l →
  held (allocation product_ids l) x
  = if decide (x ∈ l) then occurrences x product_ids else 0.
Proof.
  induction l as [|a l IH]; intros Hnd.
  - by rewrite decide_False by apply not_elem_of_nil.
  - apply NoDup_cons in Hnd as [Ha Hnd]. unfold allocation. rewrite fmap_cons, held_cons.
    cbn [OrderProduct.product_id OrderProduct.quantity].
    fold (allocation product_ids l). rewrite IH by done.
    destruct (decide (a = x)) as [->|Hne].
    + rewrite (decide_False (P := x ∈ l)) by done.
      rewrite (decide_True (P := x ∈ x :: l)) by left. lia.
    + destruct (decide (x ∈ l)) as [Hx|Hx].
      * rewrite (decide_True (P := x ∈ a :: l)) by (by right). lia.
      * rewrite (decide_False (P := x ∈ a :: l)); [lia|].
        intros [?|?]%elem_of_cons; congruence.
Qed.

Lemma held_allocation product_ids x :
  held (allocation product_ids (set_iter product_ids)) x = occurrences x product_ids.
Proof.
  rewrite held_allocation_list by done. case_decide as Hx; [done|].
  rewrite occurrences_notin; [done|]. by rewrite <- set_iter_elem.
Qed.

Lemma allocation_resolves (base products : gmap Z Product.t) product_ids delta :
  in_stock base product_ids →
  (∀ x, products !! x = restocked (delta x) <$> base !! x) →
  ∀ op, op ∈ allocation product_ids (set_iter product_ids) →
    is_Some (products !! OrderProduct.product_id op).
Proof.
  intros Hall Hlook op [Hin _]%elem_of_allocation.
  apply (proj1 (set_iter_elem _ _)) in Hin.
  destruct (Hall _ Hin) as (p & Hp & _). rewrite Hlook, Hp. by eexists.
Qed.

(** Releasing an allocation right after it was reserved gives back the
    table the reservation started from. *)
Lemma release_allocation (base products : gmap Z Product.t) product_ids :
  in_stock base product_ids →
  (∀ x, products !! x = restocked (- occurrences x product_ids) <$> base !! x) →
  release (allocation product_ids (set_iter product_ids)) products = Some base.
Proof.
  intros Hall Hlook.
  destruct (release_Some (allocation product_ids (set_iter product_ids)) products)
    as (restored & Hrel & Hrest).
  { by apply (allocation_resolves base products product_ids
                (λ x, - occurrences x product_ids)). }
  rewrite Hrel. f_equal. apply map_eq. intros x.
  rewrite Hrest, Hlook, held_allocation. destruct (base !! x) as [p|]; [|done]. cbn.
  rewrite restocked_restocked. replace (- occurrences x product_ids + occurrences x product_ids)
    with 0 by lia. by rewrite restocked_0.
Qed.

Lemma Zsum_app l1 l2 : Zsum (l1 ++ l2) = Zsum l1 + Zsum l2.
Proof. induction l1 as [|a l1 IH]; cbn; [done|]. unfold Zsum in *. lia. Qed.

Lemma Zsum_Permutation l1 l2 : l1 ≡ₚ l2 → Zsum l1 = Zsum l2.
Proof.
  induction 1 as [|a l1 l2 _ IH|a b l|l1 l2 l3 _ IH1 _ IH2]; cbn; unfold Zsum in *; cbn; lia.
Qed.

Lemma Zsum_indicator (a : Z) l :
  NoDup l → a ∈ l → Zsum ((λ x, if decide (a = x) then 1 else 0) <$> l) = 1.
Proof.
  induction l as [|b l IH]; intros Hnd Ha; [by apply elem_of_nil in Ha|].
  apply NoDup_cons in Hnd as [Hb Hnd]. cbn. destruct (decide (a = b)) as [->|Hne].
  - assert (Zsum ((λ x, if decide (b = x) then 1 else 0) <$> l) = 0) as Hz.
    { clear IH Hnd Ha. induction l as [|c l IH]; [done|].
      apply not_elem_of_cons in Hb as [Hbc Hb]. cbn. rewrite decide_False by done.
      unfold Zsum in *. rewrite IH by done. lia. }
    unfold Zsum in *. lia.
  - apply elem_of_cons in Ha as [?|Ha]; [done|]. unfold Zsum in *. rewrite IH by done. lia.
Qed.

Lemma Zsum_occurrences product_ids l :
  NoDup l → (∀ x, x ∈ product_ids → x ∈ l) →
  Zsum ((λ x, occurrences x product_ids) <$> l) = Z.of_nat (length product_ids).
Proof.
  intros Hnd. induction product_ids as [|a ids IH]; intros Hsub.
  - clear Hnd Hsub. induction l as [|b l IH]; [done|]. cbn. unfold Zsum in *. rewrite IH.
    by rewrite occurrences_nil.
  - assert (Zsum ((λ x, occurrences x (a :: ids)) <$> l)
            = Zsum ((λ x, if decide (a = x) then 1 else 0) <$> l)
              + Zsum ((λ x, occurrences x ids) <$> l)) as ->.
    { clear. induction l as [|b l IHl]; [done|]. cbn. rewrite occurrences_cons.
      unfold Zsum in *. rewrite IHl. lia. }
    rewrite Zsum_indicator; [|done|apply Hsub; left].
    rewrite IH by (intros x Hx; apply Hsub; by right). cbn [length]. lia.
Qed.

Lemma total_quantity_allocation product_ids :
  total_quantity (allocation product_ids (set_iter product_ids))
  = Z.of_nat (length product_ids).
Proof.
  unfold total_quantity, allocation. rewrite <- list_fmap_compose.
  rewrite <- (Zsum_occurrences product_ids (set_iter product_ids)); [done..|].
  intros x. by rewrite set_iter_elem.
Qed.

(** ** Creating and deleting *)

(** X2.  Deleting an order right after it was created, under a key that
    was free, gives back the database as it was before the creation:
    every stock, every order and every other table. *)
Theorem add_order_then_delete_order (order_id : Z) (st : db) (json : OrderData) :
  Orders st !! order_id = None →
  succeeded (add_order set_iter order_id st json).1 →
  delete_order (add_order set_iter order_id st json).2 order_id
  = ((message "Order removed successfully!", 200), st).
Proof.
  intros Hfresh Hok.
  destruct (add_order_cases order_id st json)
    as [[Hfail _]|(customer_id & d & product_ids & products & _ & _ & Hall & Hlook & Hr)];
    [done|].
  rewrite Hr. unfold delete_order. cbn. rewrite lookup_insert_eq. cbn.
  rewrite (release_allocation (Products st)) by done.
  rewrite delete_insert_eq, delete_id by done. by destruct st.
Qed.

(** X3.  Coalescing loses no reference and invents none: the quantities of
    the rows an order gets, when it is created or when its products are
    replaced, add up to the length of the requested list. *)
Theorem rows_add_up_to_request (order_id : Z) (st : db) (json : OrderData)
    (product_ids : list Z) :
  od_product_ids json = Some product_ids →
  (succeeded (add_order set_iter order_id st json).1 →
   ∃ o, Orders (add_order set_iter order_id st json).2 !! order_id = Some o
        ∧ total_quantity (Order.products o) = Z.of_nat (length product_ids))
  ∧ (succeeded (update_order set_iter st order_id json).1 →
     ∃ o, Orders (update_order set_iter st order_id json).2 !! order_id = Some o
          ∧ total_quantity (Order.products o) = Z.of_nat (length product_ids)).
Proof.
  intros Hids. split; intros Hok.
  - destruct (add_order_cases order_id st json)
      as [[Hfail _]|(customer_id & d & ids & products & -> & _ & _ & _ & Hr)]; [done|].
    injection Hids as <-. rewrite Hr. cbn. rewrite lookup_insert_eq. eexists. split; [done|].
    cbn. apply total_quantity_allocation.
  - destruct (update_order_cases st order_id json)
      as [[Hfail _]|(o & products & lines & _ & _ & Hr & Hlines)]; [done|].
    rewrite Hids in Hlines. destruct Hlines as (restored & _ & _ & _ & ->).
    rewrite Hr. cbn. rewrite lookup_insert_eq. eexists. split; [done|].
    cbn. apply total_quantity_allocation.
Qed.

(** ** Stock on the shelf plus stock in orders *)

Lemma allocated_insert_fresh (orders : gmap Z Order.t) k o x :
  orders !! k = None →
  allocated (<[k := o]> orders) x = held (Order.products o) x + allocated orders x.
Proof.
  intros Hk. unfold allocated.
  rewrite (Zsum_Permutation _ _ (fmap_Permutation _ _ _ (map_to_list_insert orders k o Hk))).
  done.
Qed.

Lemma allocated_delete (orders : gmap Z Order.t) k o x :
  orders !! k = Some o →
  allocated orders x = held (Order.products o) x + allocated (delete k orders) x.
Proof.
  intros Hk. unfold allocated.
  rewrite <- (Zsum_Permutation _ _ (fmap_Permutation _ _ _ (map_to_list_delete orders k o Hk))).
  done.
Qed.

Lemma allocated_insert (orders : gmap Z Order.t) k o o' x :
  orders !! k = Some o →
  allocated (<[k := o']> orders) x
  = held (Order.products o') x - held (Order.products o) x + allocated orders x.
Proof.
  intros Hk. rewrite <- insert_delete_eq.
  rewrite allocated_insert_fresh by apply lookup_delete_eq.
  rewrite (allocated_delete orders k o x Hk). lia.
Qed.

(** X4.  For every product, its stock plus the quantity all orders hold of
    it is the same before and after creating an order (under a free key),
    updating an order and deleting an order, whether the request succeeds
    or not: the order endpoints only move units between the shelf and the
    orders. *)
Theorem stock_plus_allocated_is_kept (st : db) (x : Z) (p : Product.t) :
  Products st !! x = Some p →
  (∀ order_id json,
     Orders st !! order_id = None →
     ∃ p', Products (add_order set_iter order_id st json).2 !! x = Some p'
           ∧ Product.stock p' + allocated (Orders (add_order set_iter order_id st json).2) x
             = Product.stock p + allocated (Orders st) x)
  ∧ (∀ order_id json,
       ∃ p', Products (update_order set_iter st order_id json).2 !! x = Some p'
             ∧ Product.stock p'
               + allocated (Orders (update_order set_iter st order_id json).2) x
               = Product.stock p + allocated (Orders st) x)
  ∧ (∀ order_id,
       ∃ p', Products (delete_order st order_id).2 !! x = Some p'
             ∧ Product.stock p' + allocated (Orders (delete_order st order_id).2) x
               = Product.stock p + allocated (Orders st) x).
Proof.
  intros Hp. split_and!.
  - intros order_id json Hfresh.
    destruct (add_order_cases order_id st json)
      as [[_ ->]|(customer_id & d & ids & products & _ & _ & _ & Hlook & ->)];
      [by exists p|].
    cbn [snd Products Orders set_Orders set_Products]. rewrite Hlook, Hp.
    eexists. split; [done|].
    rewrite allocated_insert_fresh by done. cbn [Order.products].
    rewrite held_allocation. cbn. lia.
  - intros order_id json.
    destruct (update_order_cases st order_id json)
      as [[_ ->]|(o & products & lines & Ho & _ & -> & Hlines)]; [by exists p|].
    cbn [snd Products Orders set_Orders set_Products].
    rewrite (allocated_insert _ _ o) by done. cbn [Order.products].
    destruct (od_product_ids json) as [ids|].
    + destruct Hlines as (restored & Hrel & _ & Hlook & ->).
      rewrite Hlook, (release_lookup _ _ _ Hrel), Hp. eexists. split; [done|].
      rewrite held_allocation. cbn. lia.
    + destruct Hlines as [-> ->]. exists p. split; [done|]. lia.
  - intros order_id.
    destruct (delete_order_cases st order_id) as [[_ ->]|(o & restored & Ho & Hrel & ->)];
      [by exists p|].
    cbn [snd Products Orders set_Orders set_Products].
    rewrite (release_lookup _ _ _ Hrel), Hp. eexists. split; [done|].
    rewrite (allocated_delete (Orders st) order_id o x Ho). cbn. lia.
Qed.

(** ** Replacements leave no trace *)

(** X5.  Deleting an order after a successful update of it is answered as
    deleting it without the update would have been, and when the delete
    succeeds it leaves the same database: whatever the update replaced or
    assigned, the delete gives back exactly what the original order held. *)
Theorem update_order_then_delete_order (st : db) (order_id : Z) (json : OrderData) :
  let st1 := (update_order set_iter st order_id json).2 in
  succeeded (update_order set_iter st order_id json).1 →
  (delete_order st1 order_id).1 = (delete_order st order_id).1
  ∧ (succeeded (delete_order st order_id).1 →
     (delete_order st1 order_id).2 = (delete_order st order_id).2).
Proof.
  intros st1 Hok. subst st1.
  destruct (update_order_cases st order_id json)
    as [[Hfail _]|(o & products & lines & Ho & _ & Hr & Hlines)]; [done|].
  rewrite Hr. unfold delete_order. cbn. rewrite lookup_insert_eq, Ho. cbn.
  rewrite delete_insert_eq.
  destruct (od_product_ids json) as [ids|].
  - destruct Hlines as (restored & Hrel & Hall & Hlook & ->).
    rewrite (release_allocation restored) by done. rewrite Hrel. done.
  - destruct Hlines as [-> ->]. destruct (release _ _); cbn; [done|].
    split; [done|]. intros Hs. by apply not_succeeded_4xx in Hs.
Qed.

(** X6.  Replacing the products of an order twice is the same as doing
    only the second replacement: after a successful first replacement
    (whose payload carries nothing but product references), a second one is
    answered as it would have been on the original database, and when it
    succeeds it ends in the very same database. *)
Theorem update_order_twice (st : db) (order_id : Z) (ids1 : list Z) (json2 : OrderData)
    (ids2 : list Z) :
  let json1 := {| od_customer_id := None; od_date := None;
                  od_product_ids := Some ids1 |} in
  let st1 := (update_order set_iter st order_id json1).2 in
  succeeded (update_order set_iter st order_id json1).1 →
  od_product_ids json2 = Some ids2 →
  (update_order set_iter st1 order_id json2).1 = (update_order set_iter st order_id json2).1
  ∧ (succeeded (update_order set_iter st order_id json2).1 →
     (update_order set_iter st1 order_id json2).2
     = (update_order set_iter st order_id json2).2).
Proof.
  intros json1 st1 Hok Hids2. subst st1 json1.
  destruct (update_order_cases st order_id
              {| od_customer_id := None; od_date := None; od_product_ids := Some ids1 |})
    as [[Hfail _]|(o & products1 & lines1 & Ho & _ & Hr & Hlines)]; [done|].
  cbn [od_product_ids] in Hlines.
  destruct Hlines as (restored & Hrel & Hall1 & Hlook1 & ->).
  cbn [od_date od_customer_id default] in Hr. rewrite Hr. cbn [snd].
  set (o1 := {| Order.date := Order.date o; Order.customer_id := Order.customer_id o;
                Order.products := allocation ids1 (set_iter ids1) |}).
  set (st1 := set_Orders (set_Products st products1) (<[order_id := o1]> (Orders st))).
  assert (Orders st1 !! order_id = Some o1) as Ho1 by apply lookup_insert_eq.
  rewrite (update_order_unfold set_iter st1 order_id o1 json2 ids2 Ho1 Hids2).
  rewrite (update_order_unfold set_iter st order_id o json2 ids2 Ho Hids2).
  cbn [st1 o1 Order.products set_Orders set_Products Products].
  rewrite (release_allocation restored) by done. rewrite Hrel.
  pose proof (reserve_request set_iter set_iter_NoDup set_iter_elem ids2 restored) as Hres.
  destruct (reserve _ _ _ _) as [err|[products2 lines2]].
  { destruct Hres as (x & Hx). cbn. split; [done|]. intros Hs.
    by apply refused_not_succeeded in Hx. }
  clear Hres.
  destruct (assign_and_commit_cases st1 (set_Products st1 products2) order_id
              {| Order.date := Order.date o1; Order.customer_id := Order.customer_id o1;
                 Order.products := lines2 |} json2 eq_refl) as [[Hok1 Hc1]|[Hno1 Hc1]];
    destruct (assign_and_commit_cases st (set_Products st products2) order_id
                {| Order.date := Order.date o; Order.customer_id := Order.customer_id o;
                   Order.products := lines2 |} json2 eq_refl) as [[Hok0 Hc0]|[Hno0 Hc0]];
    try (exfalso; by (apply Hno0 || apply Hno1)).
  - cbn [st1 o1 Order.date Order.customer_id set_Orders set_Products Products Orders
           Customers Customer_Accounts Order.products] in Hc1 |- *.
    rewrite Hc1, Hc0. cbn. rewrite insert_insert_eq. done.
  - rewrite Hc1, Hc0. cbn. split; [done|]. intros Hs. by apply not_succeeded_4xx in Hs.
Qed.

(** ** The keys of order rows *)

Lemma resolve_through (base products : gmap Z Product.t) (delta : Z → Z) :
  (∀ x, products !! x = restocked (delta x) <$> base !! x) →
  ∀ x, is_Some (base !! x) → is_Some (products !! x).
Proof. intros Hlook x [p Hp]. rewrite Hlook, Hp. by eexists. Qed.

Lemma add_all_cons key p rows (products : gmap Z Product.t) :
  add_all key (p :: rows) products = add_all (key ∘ S) rows (<[key 0%nat := p]> products).
Proof. unfold add_all. by rewrite imap_cons. Qed.

Lemma add_all_is_Some rows : ∀ key (products : gmap Z Product.t) x,
  is_Some (products !! x) → is_Some (add_all key rows products !! x).
Proof.
  induction rows as [|p rows IH]; intros key products x Hx; [done|].
  rewrite add_all_cons. apply IH. rewrite lookup_insert. by case_decide.
Qed.

Lemma add_all_Forall (Q : Product.t → Prop) rows : ∀ key (products : gmap Z Product.t),
  Forall Q rows → (∀ x p, products !! x = Some p → Q p) →
  ∀ x p, add_all key rows products !! x = Some p → Q p.
Proof.
  induction rows as [|p rows IH]; intros key products Hrows Hps x q Hq; [by eapply Hps|].
  apply Forall_cons in Hrows as [Hp Hrows]. rewrite add_all_cons in Hq.
  eapply IH; [done| |done]. intros y r Hr. rewrite lookup_insert in Hr. case_decide.
  - by injection Hr as <-.
  - by eapply Hps.
Qed.

Lemma product_endpoints_keep_orders st :
  (∀ key many json, Orders (add_product key st many json).2 = Orders st)
  ∧ (∀ product_id restock json,
       Orders (update_product st product_id restock json).2 = Orders st)
  ∧ (∀ product_id, Orders (delete_product st product_id).2 = Orders st).
Proof.
  split_and!; intros.
  - unfold add_product. by repeat case_match.
  - unfold update_product. by repeat case_match.
  - unfold delete_product. by repeat case_match.
Qed.

Lemma product_endpoints_keep_referenced st x :
  is_Some (Products st !! x) →
  (∀ key many json, is_Some (Products (add_product key st many json).2 !! x))
  ∧ (∀ product_id restock json,
       is_Some (Products (update_product st product_id restock json).2 !! x))
  ∧ (∀ product_id,
       (∀ k o op, Orders st !! k = Some o → op ∈ Order.products o →
                  OrderProduct.product_id op ≠ x)
       ∨ is_Some (Products (delete_product st product_id).2 !! x)).
Proof.
  intros Hx. split_and!.
  - intros key many json. unfold add_product.
    repeat case_match; cbn [snd Products set_Products]; try done; by apply add_all_is_Some.
  - intros product_id restock json. unfold update_product.
    repeat case_match; cbn; try done; rewrite lookup_insert; by case_decide.
  - intros product_id. unfold delete_product.
    destruct (Products st !! product_id) as [p|] eqn:Hp; [|by right].
    pose proof (select_OrderProduct_nonempty st product_id) as Hsel.
    destruct (select_OrderProduct st product_id) as [|op l]; [|by right].
    destruct (decide (x = product_id)) as [->|Hne].
    + left. intros k o op Hk Hop Heq. destruct Hsel as [_ Hsel].
      by apply Hsel; [exists k, o, op|].
    + right. cbn. by rewrite lookup_delete_ne.
Qed.

(** X7.  Two constraints on order rows are kept by every endpoint that
    writes orders or products: every row points at an existing product,
    and within an order no two rows share a product.  In particular a
    product can only disappear while no row points at it. *)
Theorem order_rows_stay_consistent (st : db) :
  lines_resolve st → rows_keyed st →
  (∀ order_id json,
     lines_resolve (add_order set_iter order_id st json).2
     ∧ rows_keyed (add_order set_iter order_id st json).2)
  ∧ (∀ order_id json,
       lines_resolve (update_order set_iter st order_id json).2
       ∧ rows_keyed (update_order set_iter st order_id json).2)
  ∧ (∀ order_id,
       lines_resolve (delete_order st order_id).2
       ∧ rows_keyed (delete_order st order_id).2)
  ∧ (∀ key many json,
       lines_resolve (add_product key st many json).2
       ∧ rows_keyed (add_product key st many json).2)
  ∧ (∀ product_id restock json,
       lines_resolve (update_product st product_id restock json).2
       ∧ rows_keyed (update_product st product_id restock json).2)
  ∧ (∀ product_id,
       lines_resolve (delete_product st product_id).2
       ∧ rows_keyed (delete_product st product_id).2).
Proof.
  intros Hfk Hkey.
  destruct (product_endpoints_keep_orders st) as (HOa & HOu & HOd).
  split_and!.
  - intros order_id json.
    destruct (add_order_cases order_id st json)
      as [[_ ->]|(customer_id & d & ids & products & _ & _ & Hall & Hlook & ->)]; [done|].
    split.
    + intros k o op Hk Hop. cbn in Hk. rewrite lookup_insert in Hk. case_decide.
      * injection Hk as <-. cbn [Order.products Products set_Products set_Orders].
        revert Hop. by apply (allocation_resolves (Products st) products ids
                                (λ x, - occurrences x ids)).
      * cbn [Products set_Products set_Orders].
        apply (resolve_through (Products st) products (λ x, - occurrences x ids) Hlook).
        by eapply Hfk.
    + intros k o Hk. cbn in Hk. rewrite lookup_insert in Hk. case_decide.
      * injection Hk as <-. cbn. rewrite allocation_product_ids. apply set_iter_NoDup.
      * by eapply Hkey.
  - intros order_id json.
    destruct (update_order_cases st order_id json)
      as [[_ ->]|(o & products & lines & Ho & _ & -> & Hlines)]; [done|].
    destruct (od_product_ids json) as [ids|].
    + destruct Hlines as (restored & Hrel & Hall & Hlook & ->).
      pose proof (release_lookup _ _ _ Hrel) as Hrest. split.
      * intros k o' op Hk Hop. cbn in Hk. rewrite lookup_insert in Hk. case_decide.
        -- injection Hk as <-. cbn [Order.products Products set_Products set_Orders].
           revert Hop. by apply (allocation_resolves restored products ids
                                   (λ x, - occurrences x ids)).
        -- cbn [Products set_Products set_Orders].
           apply (resolve_through restored products (λ x, - occurrences x ids) Hlook).
           apply (resolve_through (Products st) restored (held (Order.products o)) Hrest).
           by eapply Hfk.
      * intros k o' Hk. cbn in Hk. rewrite lookup_insert in Hk. case_decide.
        -- injection Hk as <-. cbn. rewrite allocation_product_ids. apply set_iter_NoDup.
        -- by eapply Hkey.
    + destruct Hlines as [-> ->]. split.
      * intros k o' op Hk Hop. cbn in Hk. rewrite lookup_insert in Hk. case_decide.
        -- injection Hk as <-. cbn. by eapply Hfk.
        -- cbn. by eapply Hfk.
      * intros k o' Hk. cbn in Hk. rewrite lookup_insert in Hk. case_decide.
        -- injection Hk as <-. cbn. by eapply Hkey.
        -- by eapply Hkey.
  - intros order_id.
    destruct (delete_order_cases st order_id) as [[_ ->]|(o & restored & Ho & Hrel & ->)];
      [done|].
    pose proof (release_lookup _ _ _ Hrel) as Hrest. split.
    + intros k o' op Hk Hop. cbn in Hk. apply lookup_delete_Some in Hk as [_ Hk].
      cbn [Products set_Products set_Orders].
      apply (resolve_through (Products st) restored (held (Order.products o)) Hrest).
      by eapply Hfk.
    + intros k o' Hk. cbn in Hk. apply lookup_delete_Some in Hk as [_ Hk]. by eapply Hkey.
  - intros key many json. split.
    + intros k o op Hk Hop. rewrite HOa in Hk.
      by apply (product_endpoints_keep_referenced st _ (Hfk k o op Hk Hop)).
    + intros k o Hk. rewrite HOa in Hk. by eapply Hkey.
  - intros product_id restock json. split.
    + intros k o op Hk Hop. rewrite HOu in Hk.
      by apply (product_endpoints_keep_referenced st _ (Hfk k o op Hk Hop)).
    + intros k o Hk. rewrite HOu in Hk. by eapply Hkey.
  - intros product_id. split.
    + intros k o op Hk Hop. rewrite HOd in Hk.
      destruct (product_endpoints_keep_referenced st _ (Hfk k o op Hk Hop))
        as (_ & _ & Hdel).
      destruct (Hdel product_id) as [Hnone|Hsome]; [|done].
      by destruct (Hnone k o op Hk Hop).
    + intros k o Hk. rewrite HOd in Hk. by eapply Hkey.
Qed.

(** ** Accounts *)

(** X8.  Two constraints on accounts are kept by creating and by deleting
    an account: no two accounts share a username, and every account
    belongs to an existing customer. *)
Theorem accounts_stay_consistent (st : db) :
  usernames_unique st → accounts_owned st →
  (∀ json,
     usernames_unique (add_customer_account st json).2
     ∧ accounts_owned (add_customer_account st json).2)
  ∧ (∀ customer_id,
       usernames_unique (delete_customer_account st customer_id).2
       ∧ accounts_owned (delete_customer_account st customer_id).2).
Proof.
  intros Huniq Hown. split.
  - intros json. unfold add_customer_account.
    destruct (customer_account_schema_load json) as [[[customer_id username] password]|];
      [|done].
    destruct (Customers st !! customer_id) as [c|] eqn:Hc; [|done].
    destruct (Customer_Accounts st !! customer_id) as [a|] eqn:Ha; [done|].
    pose proof (select_CustomerAccount_nonempty st username) as Hsel.
    destruct (select_CustomerAccount st username) as [|row rows]; [|done].
    assert (∀ k a, Customer_Accounts st !! k = Some a →
                   CustomerAccount.username a ≠ username) as Hfree.
    { intros k a Hk Hu. destruct Hsel as [_ Hsel]. by apply Hsel; [exists k, a|]. }
    split.
    + intros k1 k2 a1 a2 H1 H2 Hu. cbn in H1, H2.
      rewrite lookup_insert in H1. rewrite lookup_insert in H2.
      destruct (decide (customer_id = k1)) as [<-|Hn1];
        destruct (decide (customer_id = k2)) as [<-|Hn2]; [done| | |].
      * injection H1 as <-. cbn in Hu. by destruct (Hfree k2 a2 H2).
      * injection H2 as <-. cbn in Hu. by destruct (Hfree k1 a1 H1).
      * by eapply Huniq.
    + intros k a Hk. cbn in Hk |- *. rewrite lookup_insert in Hk. case_decide.
      * subst k. by rewrite Hc.
      * by eapply Hown.
  - intros customer_id. unfold delete_customer_account.
    destruct (Customer_Accounts st !! customer_id) as [a|] eqn:Ha; [|done]. split.
    + intros k1 k2 a1 a2 H1 H2 Hu. cbn in H1, H2.
      apply lookup_delete_Some in H1 as [_ H1]. apply lookup_delete_Some in H2 as [_ H2].
      by eapply Huniq.
    + intros k a' Hk. cbn in Hk |- *. apply lookup_delete_Some in Hk as [_ Hk].
      by eapply Hown.
Qed.

(** X9.  Deleting the account of a customer right after it was created
    gives back the database as it was before the creation. *)
Theorem add_then_delete_customer_account (st : db) (json : CustomerAccountData)
    (customer_id : Z) :
  cad_customer_id json = Some customer_id →
  succeeded (add_customer_account st json).1 →
  delete_customer_account (add_customer_account st json).2 customer_id
  = ((message "Customer account removed successfully!", 200), st).
Proof.
  intros Hid. unfold add_customer_account, customer_account_schema_load. rewrite Hid.
  destruct (cad_username json) as [username|]; [|by intros ?%not_succeeded_4xx].
  destruct (cad_password json) as [password|]; [|by intros ?%not_succeeded_4xx].
  destruct (_ && _); [|by intros ?%not_succeeded_4xx].
  destruct (Customers st !! customer_id); [|by intros ?%not_succeeded_4xx].
  destruct (Customer_Accounts st !! customer_id) eqn:Ha; [by intros ?%not_succeeded_4xx|].
  destruct (select_CustomerAccount st username); [|by intros ?%not_succeeded_4xx].
  intros _. unfold delete_customer_account. cbn. rewrite lookup_insert_eq. cbn.
  rewrite delete_insert_eq, delete_id by done. by destruct st.
Qed.

(** ** Restocking *)

Lemma update_product_restock st product_id c restock json :
  update_product st product_id (Some (String c restock)) json =
  if negb (isdigit (String c restock)) || (int (String c restock) <=? 0)
  then ((error "Restock by positive integer only...", 400), st)
  else match Products st !! product_id with
       | None => ((error "Product not found...", 404), st)
       | Some product =>
           ((message "Product details successfully updated!", 200),
            set_Products st
              (<[product_id :=
                   Product.set_stock product
                     (Product.stock product + int (String c restock))]>
                 (Products st)))
       end.
Proof. reflexivity. Qed.

(** X10.  Two restock requests commute: in either order each gets the
    answer it would get alone, and the database ends the same.  The JSON
    body of a restock request plays no part. *)
Theorem restocks_commute (st : db) (p1 p2 : Z) (r1 r2 : string) (j1 j2 j1' j2' : ProductData) :
  r1 ≠ EmptyString → r2 ≠ EmptyString →
  let first1 := update_product st p1 (Some r1) j1 in
  let first2 := update_product st p2 (Some r2) j2 in
  (update_product first1.2 p2 (Some r2) j2').1 = first2.1
  ∧ (update_product first2.2 p1 (Some r1) j1').1 = first1.1
  ∧ (update_product first1.2 p2 (Some r2) j2').2
    = (update_product first2.2 p1 (Some r1) j1').2.
Proof.
  intros Hr1 Hr2. destruct r1 as [|c1 r1]; [done|]. destruct r2 as [|c2 r2]; [done|].
  cbn zeta. rewrite !update_product_restock.
  generalize (int (String c1 r1)) (int (String c2 r2)). intros n1 n2.
  destruct (negb (isdigit (String c1 r1)) || (n1 <=? 0));
    destruct (negb (isdigit (String c2 r2)) || (n2 <=? 0)); cbn [fst snd].
  - done.
  - by destruct (Products st !! p2).
  - by destruct (Products st !! p1).
  - destruct (decide (p1 = p2)) as [<-|Hne].
    + destruct (Products st !! p1) as [prod|] eqn:Hp; cbn [fst snd];
        [|by rewrite Hp].
      cbn [Products set_Products]. rewrite !lookup_insert_eq. cbn [fst snd].
      split_and!; [done..|]. cbn [Products set_Products]. rewrite !insert_insert_eq.
      unfold Product.set_stock. cbn. do 3 f_equal. lia.
    + destruct (Products st !! p1) as [prod1|] eqn:Hp1;
        destruct (Products st !! p2) as [prod2|] eqn:Hp2;
        cbn [fst snd Products set_Products];
        rewrite ?lookup_insert_ne by done; rewrite ?Hp1, ?Hp2; cbn [fst snd]; try done.
      split_and!; [done..|]. cbn [Products set_Products]. by rewrite insert_insert_ne.
Qed.

(** ** New products *)

Lemma new_Product_stock_nonneg d product_data :
  product_schema_load d = Some product_data → 0 ≤ Product.stock (new_Product product_data).
Proof.
  unfold product_schema_load. destruct (pd_name d) as [nm|]; [|done].
  destruct (pd_price d) as [pr|]; [|done].
  destruct (valid_opt valid_stock (pd_stock d)) eqn:Hv; [|by rewrite andb_false_r].
  destruct (_ && _); [|done]. intros [= <-]. cbn.
  destruct (pd_stock d) as [s|]; cbn in *; [|done]. unfold valid_stock in Hv. lia.
Qed.

Lemma new_Products_stock_nonneg l products_data :
  mapM product_schema_load l = Some products_data →
  Forall (λ p, 0 ≤ Product.stock p) (new_Product <$> products_data).
Proof.
  intros Hload%mapM_Some. apply Forall_fmap.
  induction Hload as [|d pd l k Hd _ IH]; constructor; [|done]. cbn.
  by eapply new_Product_stock_nonneg.
Qed.

(** X11.  Adding products, one or a batch, and deleting a product keep
    every stock non-negative and every order row's quantity positive; a
    product added without a stock starts with stock 1, and a batch with one
    invalid entry adds nothing. *)
Theorem product_rows_stay_valid (st : db) :
  quantities_positive st → stock_nonneg st →
  (∀ key many json,
     stock_nonneg (add_product key st many json).2
     ∧ quantities_positive (add_product key st many json).2)
  ∧ (∀ product_id,
       stock_nonneg (delete_product st product_id).2
       ∧ quantities_positive (delete_product st product_id).2)
  ∧ (∀ key name price,
       valid_name name = true → valid_price price = true →
       Products (add_product key st None
                   (product_object {| pd_name := Some name; pd_price := Some price;
                                      pd_stock := None |})).2 !! key 0%nat
       = Some {| Product.name := name; Product.price := price; Product.stock := 1 |})
  ∧ (∀ key l,
       mapM product_schema_load l = None →
       add_product key st (Some "true") (product_array l) = ((err_messages, 400), st)).
Proof.
  intros Hq Hs. destruct (product_endpoints_keep_orders st) as (HOa & _ & HOd).
  split_and!.
  - intros key many json. split.
    + unfold add_product. repeat case_match; try done.
      * intros x q Hq'. cbn [snd Products set_Products] in Hq'.
        eapply (add_all_Forall (λ p, 0 ≤ Product.stock p)); [|apply Hs|done].
        by eapply new_Products_stock_nonneg.
      * intros x q Hq'. cbn [snd Products set_Products] in Hq'.
        eapply (add_all_Forall (λ p, 0 ≤ Product.stock p)); [|apply Hs|done].
        constructor; [|done]. by eapply new_Product_stock_nonneg.
    + intros k o op Hk. rewrite HOa in Hk. by eapply Hq.
  - intros product_id. split.
    + unfold delete_product. repeat case_match; try done.
      intros x q Hq'. cbn in Hq'. apply lookup_delete_Some in Hq' as [_ Hq']. by eapply Hs.
    + intros k o op Hk. rewrite HOd in Hk. by eapply Hq.
  - intros key name price Hn Hp. unfold add_product. rewrite decide_False by done.
    unfold product_schema_load. cbn. rewrite Hn, Hp. cbn. by rewrite lookup_insert_eq.
  - intros key l Hl. unfold add_product. rewrite decide_True by done. by rewrite Hl.
Qed.

Lemma occurrences_replicate (x : Z) (n : nat) : occurrences x (replicate n x) = Z.of_nat n.
Proof.
  induction n as [|n IH]; [done|]. cbn [replicate]. rewrite occurrences_cons, IH.
  rewrite decide_True by done. lia.
Qed.

Lemma add_order_succeeds order_id st customer_id d product_ids :
  is_Some (Customers st !! customer_id) →
  (succeeded (add_order set_iter order_id st
                {| od_customer_id := Some customer_id; od_date := Some d;
                   od_product_ids := Some product_ids |}).1
   ↔ in_stock (Products st) product_ids).
Proof.
  intros [c Hc]. rewrite (add_order_unfold set_iter _ _ _ _ _ c Hc).
  pose proof (reserve_request set_iter set_iter_NoDup set_iter_elem
                product_ids (Products st)) as Hres.
  destruct (reserve _ _ _ _) as [err|[products lines]]; cbn.
  - destruct Hres as (x & Hx). split.
    + intros Hok. by apply refused_not_succeeded in Hx.
    + intros Hall. by apply refused_not_in_stock in Hx.
  - destruct Hres as (Hall & _). split; [done|]. intros _. by apply succeeded_2xx.
Qed.

(** X12.  A product added under a free key with stock [s] (1 when the
    request names none) can be ordered by an existing customer in one
    request of [n] references exactly when [n <= s]. *)
Theorem new_product_can_be_ordered (key : nat → Z) (st : db) (d : ProductData)
    (product_data : string * float * option Z) (order_id customer_id : Z) (day : date)
    (n : nat) :
  let st' := (add_product key st None (product_object d)).2 in
  product_schema_load d = Some product_data →
  is_Some (Customers st !! customer_id) →
  (succeeded (add_order set_iter order_id st'
                {| od_customer_id := Some customer_id; od_date := Some day;
                   od_product_ids := Some (replicate n (key 0%nat)) |}).1
   ↔ Z.of_nat n ≤ default 1 product_data.2).
Proof.
  intros st' Hload Hc. subst st'.
  pose proof (new_Product_stock_nonneg _ _ Hload) as Hnn. cbn in Hnn.
  unfold add_product. rewrite decide_False by done. rewrite Hload. cbn [snd].
  rewrite add_order_succeeds by (cbn; done).
  cbn [Products set_Products]. unfold add_all. cbn. split.
  - intros Hall. destruct n as [|n]; [lia|].
    destruct (Hall (key 0%nat)) as (p & Hp & Hle); [left|].
    rewrite lookup_insert_eq in Hp. injection Hp as <-.
    rewrite occurrences_replicate in Hle. done.
  - intros Hle x Hx. apply elem_of_replicate in Hx as [-> _].
    eexists. rewrite lookup_insert_eq. split; [done|].
    by rewrite occurrences_replicate.
Qed.

End Further.

(** * Worked examples, continued *)

Section MoreExamples.
Import Shop.

Lemma shop_resolves : lines_resolve shop.
Proof.
  intros k o op Hk Hop. unfold shop in Hk. cbn [Orders] in Hk.
  apply lookup_singleton_Some in Hk as [_ <-]. by apply shop_lines_resolve.
Defined.

Lemma shop_rows_keyed : rows_keyed shop.
Proof.
  intros k o Hk. unfold shop in Hk. cbn [Orders] in Hk.
  apply lookup_singleton_Some in Hk as [_ <-]. cbn.
  apply NoDup_cons. split.
  { intros Hin. apply elem_of_cons in Hin as [?|Hin]; [done|by apply elem_of_nil in Hin]. }
  apply NoDup_cons. split; [apply not_elem_of_nil|apply NoDup_nil_2].
Defined.

Lemma shop_usernames_unique : usernames_unique shop.
Proof.
  intros k1 k2 a1 a2 H1 H2 _. unfold shop in H1, H2. cbn [Customer_Accounts] in H1, H2.
  apply lookup_singleton_Some in H1 as [<- _]. by apply lookup_singleton_Some in H2 as [<- _].
Defined.

Lemma shop_accounts_owned : accounts_owned shop.
Proof.
  intros k a Hk. unfold shop in Hk. cbn [Customer_Accounts] in Hk.
  apply lookup_singleton_Some in Hk as [<- _]. by eexists.
Defined.

Lemma shop_order_accepted :
  succeeded (add_order remove_dups 11 shop (create 1 [1; 3; 1])).1.
Proof. vm_compute. split; [discriminate|reflexivity]. Defined.

Lemma shop_replace_accepted :
  succeeded (update_order remove_dups shop 10 (replace [1; 3; 3; 3])).1.
Proof. vm_compute. split; [discriminate|reflexivity]. Defined.



Lemma add_order_then_delete_order_witness :
  Orders shop !! 11 = None
  ∧ succeeded (add_order remove_dups 11 shop (create 1 [1; 3; 1])).1
  ∧ delete_order (add_order remove_dups 11 shop (create 1 [1; 3; 1])).2 11
    = ((message "Order removed successfully!", 200), shop).
Proof.
  split; [reflexivity|]. split; [exact shop_order_accepted|].
  exact (add_order_then_delete_order remove_dups NoDup_remove_dups elem_of_remove_dups
           11 shop (create 1 [1; 3; 1]) eq_refl shop_order_accepted).
Defined.

Lemma rows_add_up_to_request_witness :
  od_product_ids (create 1 [1; 3; 1]) = Some [1; 3; 1]
  ∧ ∃ o, Orders (add_order remove_dups 11 shop (create 1 [1; 3; 1])).2 !! 11 = Some o
         ∧ total_quantity (Order.products o) = 3.
Proof.
  split; [reflexivity|].
  exact (proj1 (rows_add_up_to_request remove_dups NoDup_remove_dups elem_of_remove_dups
                  11 shop (create 1 [1; 3; 1]) [1; 3; 1] eq_refl) shop_order_accepted).
Defined.

Lemma stock_plus_allocated_is_kept_witness :
  Products shop !! 1 = Some A
  ∧ ∃ p', Products (update_order remove_dups shop 10 (replace [1; 3; 3; 3])).2 !! 1
          = Some p'
          ∧ Product.stock p'
            + allocated (Orders (update_order remove_dups shop 10 (replace [1; 3; 3; 3])).2) 1
            = Product.stock A + allocated (Orders shop) 1.
Proof.
  split; [reflexivity|].
  destruct (stock_plus_allocated_is_kept remove_dups NoDup_remove_dups elem_of_remove_dups
              shop 1 A eq_refl) as (_ & Hupdate & _).
  exact (Hupdate 10 (replace [1; 3; 3; 3])).
Defined.

Lemma update_order_then_delete_order_witness :
  succeeded (update_order remove_dups shop 10 (replace [1; 3; 3; 3])).1
  ∧ (delete_order (update_order remove_dups shop 10 (replace [1; 3; 3; 3])).2 10).1
    = (delete_order shop 10).1.
Proof.
  split; [exact shop_replace_accepted|].
  exact (proj1 (update_order_then_delete_order remove_dups NoDup_remove_dups
                  elem_of_remove_dups shop 10 (replace [1; 3; 3; 3])
                  shop_replace_accepted)).
Defined.

Lemma update_order_twice_witness :
  succeeded (update_order remove_dups shop 10 (replace [1; 3; 3; 3])).1
  ∧ od_product_ids (replace [2; 2]) = Some [2; 2]
  ∧ (update_order remove_dups
       (update_order remove_dups shop 10 (replace [1; 3; 3; 3])).2 10 (replace [2; 2])).1
    = (update_order remove_dups shop 10 (replace [2; 2])).1.
Proof.
  split; [exact shop_replace_accepted|]. split; [reflexivity|].
  exact (proj1 (update_order_twice remove_dups NoDup_remove_dups elem_of_remove_dups
                  shop 10 [1; 3; 3; 3] (replace [2; 2]) [2; 2]
                  shop_replace_accepted eq_refl)).
Defined.

Lemma order_rows_stay_consistent_witness :
  lines_resolve shop ∧ rows_keyed shop
  ∧ lines_resolve (delete_product shop 1).2
  ∧ lines_resolve (add_order remove_dups 11 shop (create 1 [1; 3; 1])).2
  ∧ rows_keyed (add_order remove_dups 11 shop (create 1 [1; 3; 1])).2.
Proof.
  split; [exact shop_resolves|]. split; [exact shop_rows_keyed|].
  destruct (order_rows_stay_consistent remove_dups NoDup_remove_dups elem_of_remove_dups
              shop shop_resolves shop_rows_keyed) as (Hadd & _ & _ & _ & _ & Hdel).
  split; [apply Hdel|]. apply Hadd.
Defined.

Lemma accounts_stay_consistent_witness :
  usernames_unique shop ∧ accounts_owned shop
  ∧ usernames_unique (delete_customer_account shop 1).2
  ∧ accounts_owned (delete_customer_account shop 1).2.
Proof.
  split; [exact shop_usernames_unique|]. split; [exact shop_accounts_owned|].
  apply (accounts_stay_consistent shop shop_usernames_unique shop_accounts_owned).
Defined.

(** The shop with no account yet, and a payload that opens one for customer 1. *)
Lemma add_then_delete_customer_account_witness :
  let st := set_Customer_Accounts shop ∅ in
  let json := {| cad_customer_id := Some 1; cad_username := Some "ada";
                 cad_password := Some "secret" |} in
  cad_customer_id json = Some 1
  ∧ succeeded (add_customer_account st json).1
  ∧ delete_customer_account (add_customer_account st json).2 1
    = ((message "Customer account removed successfully!", 200), st).
Proof.
  intros st json.
  assert (succeeded (add_customer_account st json).1) as Hok
    by (vm_compute; split; [discriminate|reflexivity]).
  split; [reflexivity|]. split; [exact Hok|].
  exact (add_then_delete_customer_account st json 1 eq_refl Hok).
Defined.

Lemma restocks_commute_witness :
  let body := {| pd_name := None; pd_price := None; pd_stock := None |} in
  (update_product (update_product shop 3 (Some "12") body).2 1 (Some "7") body).2
  = (update_product (update_product shop 1 (Some "7") body).2 3 (Some "12") body).2.
Proof.
  intros body.
  assert ("12" ≠ EmptyString) as H1 by discriminate.
  assert ("7" ≠ EmptyString) as H2 by discriminate.
  exact (proj2 (proj2 (restocks_commute shop 3 1 "12" "7" body body body body H1 H2))).
Defined.

Lemma product_rows_stay_valid_witness :
  quantities_positive shop ∧ stock_nonneg shop
  ∧ stock_nonneg (delete_product shop 3).2
  ∧ quantities_positive (delete_product shop 3).2.
Proof.
  split; [exact shop_quantities_positive|]. split; [exact shop_stock_nonneg|].
  destruct (product_rows_stay_valid shop shop_quantities_positive shop_stock_nonneg)
    as (_ & Hdel & _).
  apply Hdel.
Defined.

(** A drill added with stock 2 under key 7 can be ordered twice at once. *)
Lemma new_product_can_be_ordered_witness :
  let key := λ i : nat, 7 + Z.of_nat i in
  let d := {| pd_name := Some "drill"; pd_price := Some 9%float; pd_stock := Some 2 |} in
  product_schema_load d = Some ("drill", 9%float, Some 2)
  ∧ is_Some (Customers shop !! 1)
  ∧ succeeded
      (add_order remove_dups 11 (add_product key shop None (product_object d)).2
         (create 1 (replicate 2 (key 0%nat)))).1.
Proof.
  intros key d.
  assert (product_schema_load d = Some ("drill", 9%float, Some 2)) as Hload
    by (vm_compute; reflexivity).
  assert (is_Some (Customers shop !! 1)) as Hc by (by eexists).
  split; [exact Hload|]. split; [exact Hc|].
  apply (new_product_can_be_ordered remove_dups NoDup_remove_dups elem_of_remove_dups
           key shop d ("drill", 9%float, Some 2) 11 1 day1 2 Hload Hc).
  vm_compute. discriminate.
Defined.

End MoreExamples.
